(** * lunar_tools: camera capture (cam.py) and GPU renderer (gl.py)

    A shallow embedding of [lunar_tools/cam.py] and [lunar_tools/gl.py].
    Python objects become records, attribute assignment becomes record
    update, and every call into OpenCV, SDL2, OpenGL, CUDA or torch is
    recorded in a chronological trace, its result being read from an
    explicit description of the outside world.  Exceptions and
    [sys.exit] are the non-returning cases of [outcome]; a [while] loop
    runs on fuel.  [print] writes to the console only and is left out;
    [time.sleep] appears in the trace with its duration in milliseconds. *)

From Stdlib Require Import ZArith List String Ascii Bool Lia.
From Stdlib Require Import Floats.SpecFloat.
From stdpp Require Import gmap strings list pretty.

Open Scope Z_scope.

(** ** Python outcomes *)

Inductive exn : Type :=
| ValueError (msg : string)
| AttributeError (msg : string)
| RuntimeError (msg : string)
| NotImplementedError (msg : string)
| IndexError (msg : string)
| AxisError (msg : string)
| PyException (msg : string)
| SDLException
| CudaException (msg : string)
| OpenGLException (msg : string).

(** [OutOfFuel] is not a Python outcome: it says that the call has not
    finished within the number of loop iterations the model was given. *)
Inductive outcome (A : Type) : Type :=
| Return (a : A)
| Raise (e : exn)
| SysExit (code : Z)
| OutOfFuel.

Arguments Return {A} a.
Arguments Raise {A} e.
Arguments SysExit {A} code.
Arguments OutOfFuel {A}.

(** A computation over a mutable store [S]; the store survives an
    exception, as the Python object and the outside world do. *)
Definition M (S A : Type) : Type := S -> outcome A * S.

Definition ret {S A} (a : A) : M S A := fun s => (Return a, s).

Definition bind {S A B} (m : M S A) (k : A -> M S B) : M S B :=
  fun s =>
    match m s with
    | (Return a, s') => k a s'
    | (Raise e, s') => (Raise e, s')
    | (SysExit c, s') => (SysExit c, s')
    | (OutOfFuel, s') => (OutOfFuel, s')
    end.

Definition raise {S A} (e : exn) : M S A := fun s => (Raise e, s).
Definition sys_exit {S A} (c : Z) : M S A := fun s => (SysExit c, s).
Definition out_of_fuel {S A} : M S A := fun s => (OutOfFuel, s).
Definition get {S} : M S S := fun s => (Return s, s).
Definition modify {S} (f : S -> S) : M S unit := fun s => (Return tt, f s).

Notation "'let*' x ':=' m 'in' k" := (bind m (fun x => k))
  (at level 10, x name, m at level 100, k at level 200).
Notation "m ';;;' k" := (bind m (fun _ => k))
  (at level 100, k at level 200, right associativity).

(** The values an attribute of [PeripheralEvent] can hold: [None], an
    [int], or a [ctypes.c_int] cell. *)
Inductive pyval : Type :=
| PyNone
| PyInt (z : Z)
| PyCInt (z : Z).

(** ** Arrays

    A numpy array or torch tensor is its shape and its elements in
    row-major order. *)
Record ndarray (A : Type) : Type := mk_ndarray {
  shape : list nat;
  data : list A
}.
Arguments mk_ndarray {A} shape data.
Arguments shape {A} n.
Arguments data {A} n.

Definition prod_list (l : list nat) : nat := fold_right Nat.mul 1%nat l.

(** [a.size]: the number of elements. *)
Definition size {A} (a : ndarray A) : nat := prod_list (shape a).

(** [k] consecutive chunks of [n] elements each. *)
Fixpoint chunks {A} (k n : nat) (l : list A) : list (list A) :=
  match k with
  | O => []
  | S k' => firstn n l :: chunks k' n (skipn n l)
  end.

(** [np.zeros(shape, dtype=np.uint8)] *)
Definition np_zeros (sh : list nat) : ndarray Z :=
  mk_ndarray sh (repeat 0 (prod_list sh)).

(** [outer] blocks of [d] chunks of [inner] elements each; in every
    block the chunks are put in reverse order. *)
Definition flip_blocks {A} (outer d inner : nat) (l : list A) : list A :=
  concat (map (fun blk => concat (rev (chunks d inner blk)))
              (chunks outer (d * inner) l)).

(** [np.flip(a, axis)]: the order of the entries along [axis] is
    reversed; what lies below that axis keeps its inner order.  An axis
    the array does not have is an [AxisError]. *)
Definition flip_data {A} (sh : list nat) (axis : nat) (l : list A) : list A :=
  flip_blocks (prod_list (firstn axis sh)) (nth axis sh 1%nat)
    (prod_list (skipn (S axis) sh)) l.

Definition np_flip {A} (a : ndarray A) (axis : nat) : outcome (ndarray A) :=
  if (axis <? length (shape a))%nat
  then Return (mk_ndarray (shape a) (flip_data (shape a) axis (data a)))
  else Raise (AxisError "axis is out of bounds for array").

Definition lift {S A} (o : outcome A) : M S A := fun s => (o, s).

(** Element [(i, j, c)] of a three-dimensional array. *)
Definition at3 {A} (a : ndarray A) (i j c : nat) : option A :=
  match shape a with
  | [h; w; ch] =>
      if (i <? h)%nat && (j <? w)%nat && (c <? ch)%nat
      then data a !! ((i * w + j) * ch + c)%nat
      else None
  | _ => None
  end.

(** * cam.py *)
Module Cam.

(** What [cv2.VideoCapture] is opened from: a device index or a path. *)
Inductive dev_ref : Type :=
| DevIndex (i : Z)
| DevPath (p : string).

(** An open capture: a fresh identifier and what it was opened from. *)
Record handle : Type := mk_handle { hid : nat; hdev : dev_ref }.

Inductive cap_prop : Type :=
| CAP_PROP_FPS
| CAP_PROP_FOURCC
| CAP_PROP_FRAME_WIDTH
| CAP_PROP_FRAME_HEIGHT
| CAP_PROP_AUTOFOCUS
| CAP_PROP_FOCUS.

(** Calls that leave the program, in the order they are made. *)
Inductive call : Type :=
| Glob
| VideoCapture (h : handle)
| VideoCaptureAVFoundation (h : handle)
| CapRelease (h : handle)
| CapSet (h : handle) (p : cap_prop) (v : Z)
| CapRead (h : handle)
| ThreadStart (t : nat)
| ThreadJoin (t : nat)
| DestroyAllWindows
| Sleep (ms : Z).

(** The attributes of a [WebCam].  [cam], [threader_active] and [thread]
    do not exist until the code first assigns them.  [sleep_time_thread]
    is 0.001 s and is kept in milliseconds. *)
Record WebCam : Type := mk_WebCam {
  do_mirror : bool;
  shift_colors : bool;
  cam_id : Z;
  shape_hw : nat * nat;
  img_last : ndarray Z;
  device_ptr : dev_ref;
  sleep_time_thread : Z;
  cam : option handle;
  threader_active : option bool;
  thread : option nat
}.

(** The outside world as one call sees it.  [get_os_type] belongs to
    [lunar_tools.utils]; its answer is a parameter here.  [frame_of n d]
    is what the [n]-th [read] of the run returns on a capture opened from
    [d]; [me] is the thread the call runs on. *)
Record env : Type := mk_env {
  os_type : string;
  glob_video : list string;
  frame_of : nat -> dev_ref -> option (ndarray Z);
  me : nat
}.

Record state : Type := mk_state {
  obj : WebCam;
  reads : nat;
  next_id : nat;
  trace : list call
}.

Definition set_obj (f : WebCam -> WebCam) (s : state) : state :=
  mk_state (f (obj s)) (reads s) (next_id s) (trace s).

Definition with_img_last (v : ndarray Z) (o : WebCam) : WebCam :=
  mk_WebCam (do_mirror o) (shift_colors o) (cam_id o) (shape_hw o) v
    (device_ptr o) (sleep_time_thread o) (cam o) (threader_active o) (thread o).
Definition with_device_ptr (v : dev_ref) (o : WebCam) : WebCam :=
  mk_WebCam (do_mirror o) (shift_colors o) (cam_id o) (shape_hw o) (img_last o)
    v (sleep_time_thread o) (cam o) (threader_active o) (thread o).
Definition with_cam (v : handle) (o : WebCam) : WebCam :=
  mk_WebCam (do_mirror o) (shift_colors o) (cam_id o) (shape_hw o) (img_last o)
    (device_ptr o) (sleep_time_thread o) (Some v) (threader_active o) (thread o).
Definition with_threader_active (v : bool) (o : WebCam) : WebCam :=
  mk_WebCam (do_mirror o) (shift_colors o) (cam_id o) (shape_hw o) (img_last o)
    (device_ptr o) (sleep_time_thread o) (cam o) (Some v) (thread o).
Definition with_thread (v : nat) (o : WebCam) : WebCam :=
  mk_WebCam (do_mirror o) (shift_colors o) (cam_id o) (shape_hw o) (img_last o)
    (device_ptr o) (sleep_time_thread o) (cam o) (threader_active o) (Some v).

Definition emit (c : call) : M state unit :=
  modify (fun s => mk_state (obj s) (reads s) (next_id s) (trace s ++ [c])).

Definition self : M state WebCam := fun s => (Return (obj s), s).

Definition fresh : M state nat :=
  fun s => (Return (next_id s),
            mk_state (obj s) (reads s) (S (next_id s)) (trace s)).

(** [self.cam], an [AttributeError] while the attribute is missing. *)
Definition self_cam : M state handle :=
  let* o := self in
  match cam o with
  | Some h => ret h
  | None => raise (AttributeError "'WebCam' object has no attribute 'cam'")
  end.

(** [cv2.VideoCapture(d)] *)
Definition open_capture (d : dev_ref) : M state handle :=
  let* n := fresh in
  let h := mk_handle n d in
  emit (VideoCapture h) ;;; ret h.

(** [list.remove(x)]: the first occurrence goes, [ValueError] if none. *)
Fixpoint py_remove (x : string) (l : list string) : option (list string) :=
  match l with
  | [] => None
  | y :: l' => if String.eqb x y then Some l'
               else option_map (cons y) (py_remove x l')
  end.

Section WithEnv.
Variable E : env.

(** [self.cam.read()] *)
Definition cam_read : M state (option (ndarray Z)) :=
  let* h := self_cam in
  emit (CapRead h) ;;;
  fun s => (Return (frame_of E (reads s) (hdev h)),
            mk_state (obj s) (S (reads s)) (next_id s) (trace s)).

Definition release : M state unit :=
  modify (set_obj (with_threader_active false)) ;;;
  let* o := self in
  match thread o with
  | None => raise (AttributeError "'WebCam' object has no attribute 'thread'")
  | Some t =>
      if (t =? me E)%nat then raise (RuntimeError "cannot join current thread")
      else
        emit (ThreadJoin t) ;;;
        let* h := self_cam in
        emit (CapRelease h) ;;;
        emit DestroyAllWindows ;;;
        let* h' := open_capture (DevIndex (cam_id o)) in
        emit (CapRelease h')
  end.

Definition set_cap_props : M state unit :=
  let codec := 0x47504A4D in
  let* o := self in
  let* h := self_cam in
  emit (CapSet h CAP_PROP_FPS 30) ;;;
  emit (CapSet h CAP_PROP_FOURCC codec) ;;;
  emit (CapSet h CAP_PROP_FRAME_WIDTH (Z.of_nat (snd (shape_hw o)))) ;;;
  emit (CapSet h CAP_PROP_FRAME_HEIGHT (Z.of_nat (fst (shape_hw o)))).

(** The [while True] loop of [init_ubuntu]; each unit of fuel pays for one
    iteration. *)
Fixpoint init_ubuntu_loop (fuel : nat) (device_paths : list string)
    (device_ptr : string) : M state string :=
  match fuel with
  | O => out_of_fuel
  | S fuel' =>
      release ;;;
      let* o := self in
      let* dp :=
        (if (cam_id o =? -1) && (1 <? length device_paths)%nat then
           match py_remove device_ptr device_paths with
           | None => raise (ValueError "list.remove(x): x not in list")
           | Some paths' =>
               match paths' with
               | [] => raise (IndexError "list index out of range")
               | p :: _ => ret (paths', p)
               end
           end
         else ret (device_paths, device_ptr)) in
      let* h := open_capture (DevPath (snd dp)) in
      modify (set_obj (with_cam h)) ;;;
      set_cap_props ;;;
      let* img := cam_read in
      match img with
      | Some _ => ret (snd dp)
      | None => emit (Sleep 200) ;;; init_ubuntu_loop fuel' (fst dp) (snd dp)
      end
  end.

Definition init_ubuntu (fuel : nat) : M state unit :=
  emit Glob ;;;
  let device_paths := glob_video E in
  match device_paths with
  | [] => raise (ValueError "No cameras found")
  | p0 :: _ =>
      let* o := self in
      let device_ptr :=
        if cam_id o =? -1 then p0
        else ("/dev/video" +:+ pretty (cam_id o))%string in
      let* h := open_capture (DevPath device_ptr) in
      modify (set_obj (with_cam h)) ;;;
      let* device_ptr := init_ubuntu_loop fuel device_paths device_ptr in
      modify (set_obj (with_device_ptr (DevPath device_ptr)))
  end.

Definition init_mac : M state unit :=
  let* o := self in
  let* n := fresh in
  let h := mk_handle n (DevIndex (cam_id o)) in
  emit (VideoCaptureAVFoundation h) ;;;
  modify (set_obj (with_cam h)).

Definition smart_init (fuel : nat) : M state unit :=
  (if String.eqb (os_type E) "Ubuntu" then init_ubuntu fuel
   else if String.eqb (os_type E) "MacOS" then init_mac
   else raise (NotImplementedError "Only Ubuntu and Mac supported.")) ;;;
  set_cap_props.

(** The object as [__init__] has it when it reaches [self.smart_init()]. *)
Definition init_fields (cam_id : Z) (shape_hw : nat * nat) : WebCam :=
  mk_WebCam false true cam_id shape_hw
    (np_zeros [fst shape_hw; snd shape_hw; 3%nat])
    (DevIndex 0) 1 None None None.

Definition get_raw_image : M state (option (ndarray Z)) :=
  let* img := cam_read in
  match img with
  | None => ret None
  | Some a => if (size a <? 100)%nat then ret None else ret (Some a)
  end.

Definition process_raw_image (o : WebCam) (img : ndarray Z)
    : outcome (ndarray Z) :=
  match (if shift_colors o then np_flip img 2 else Return img) with
  | Return img1 => if do_mirror o then np_flip img1 1 else Return img1
  | r => r
  end.

Definition get_img (o : WebCam) : ndarray Z := img_last o.

(** One iteration of the [while self.threader_active] loop of
    [threader_runfunc_cam]; [fuel] pays for the acquisition loop that a
    repair runs. *)
Definition threader_body (fuel : nat) : M state unit :=
  let* img := get_raw_image in
  match img with
  | None =>
      let* h := self_cam in
      emit (CapRelease h) ;;;
      let* o := self in
      let* h' := open_capture (device_ptr o) in
      emit (CapRelease h') ;;;
      smart_init fuel ;;;
      emit (Sleep 1000)
  | Some a =>
      let* o := self in
      let* r := lift (process_raw_image o a) in
      modify (set_obj (with_img_last r))
  end ;;;
  let* o := self in
  emit (Sleep (sleep_time_thread o)).

Fixpoint threader_runfunc_cam (fuel : nat) : M state unit :=
  match fuel with
  | O => out_of_fuel
  | S fuel' =>
      let* o := self in
      match threader_active o with
      | None =>
          raise (AttributeError
                   "'WebCam' object has no attribute 'threader_active'")
      | Some false => ret tt
      | Some true => threader_body fuel' ;;; threader_runfunc_cam fuel'
      end
  end.

(** [WebCam.__init__].  The capture thread gets a fresh identifier; what
    it then does, [threader_runfunc_cam], runs on its own and is followed
    one round at a time. *)
Definition __init__ (cam_id : Z) (shape_hw : nat * nat) (fuel : nat)
    : M state unit :=
  modify (set_obj (fun _ => init_fields cam_id shape_hw)) ;;;
  smart_init fuel ;;;
  modify (set_obj (with_threader_active true)) ;;;
  let* t := fresh in
  modify (set_obj (with_thread t)) ;;;
  emit (ThreadStart t).

End WithEnv.

(** ** Vocabulary of the properties *)

(** A frame is a [uint8] array: one byte per element. *)
Definition itemsize_uint8 : nat := 1.
Definition nbytes (a : ndarray Z) : nat := (size a * itemsize_uint8)%nat.

(** The states of a [WebCam] made with [cam_id] and [shape_hw] that no
    frame has been published to: the state [__init__] leaves, and from
    there any call of [release] or [smart_init] and any round of the
    capture loop whose read brought no frame. *)
Inductive no_frame_published (cam_id : Z) (shape_hw : nat * nat)
    : state -> Prop :=
| nfp_init E fuel s0 :
    no_frame_published cam_id shape_hw
      (snd (__init__ E cam_id shape_hw fuel s0))
| nfp_release E s :
    no_frame_published cam_id shape_hw s ->
    no_frame_published cam_id shape_hw (snd (release E s))
| nfp_smart_init E fuel s :
    no_frame_published cam_id shape_hw s ->
    no_frame_published cam_id shape_hw (snd (smart_init E fuel s))
| nfp_bad_read E fuel s :
    no_frame_published cam_id shape_hw s ->
    (forall a, fst (get_raw_image E s) <> Return (Some a)) ->
    no_frame_published cam_id shape_hw (snd (threader_body E fuel s)).

(** A computation that leaves [img_last] as it found it. *)
Definition keeps_img_last {A} (m : M state A) : Prop :=
  forall s, img_last (obj (snd (m s))) = img_last (obj s).

(** The captures a trace has opened and not released. *)
Definition track_handle (acc : list handle) (c : call) : list handle :=
  match c with
  | VideoCapture h | VideoCaptureAVFoundation h => acc ++ [h]
  | CapRelease h => List.filter (fun h' => negb (hid h' =? hid h)%nat) acc
  | _ => acc
  end.

Definition open_handles (tr : list call) : list handle :=
  fold_left track_handle tr [].

(** ** Sample inputs *)

(** One enumerated camera that never delivers a frame; the caller is
    thread 0. *)
Definition one_silent_camera : env :=
  mk_env "Ubuntu" ["/dev/video0"%string] (fun _ _ => None) 0.

(** Two enumerated cameras; the second delivers a 10 x 10 x 3 frame of
    value 128 from its second read on. *)
Definition frame_128 : ndarray Z :=
  mk_ndarray [10; 10; 3]%nat (repeat 128 300).

Definition second_camera_wakes : env :=
  mk_env "Ubuntu" ["/dev/video0"%string; "/dev/video1"%string]
    (fun n d =>
       match d with
       | DevPath p =>
           if String.eqb p "/dev/video1" && (1 <=? n)%nat
           then Some frame_128 else None
       | DevIndex _ => None
       end) 0.

(** A Mac whose camera delivers nothing, as the main thread (0) and as
    the capture thread (2) see it. *)
Definition mac_main_thread : env :=
  mk_env "MacOS" [] (fun _ _ => None) 0.
Definition mac_capture_thread : env :=
  mk_env "MacOS" [] (fun _ _ => None) 2.

(** A [WebCam] with [cam_id = -1] for 2 x 2 frames whose capture thread
    is thread 1. *)
Definition webcam_first_available : WebCam :=
  mk_WebCam false true (-1) (2, 2)%nat (np_zeros [2; 2; 3]%nat)
    (DevIndex 0) 1 (Some (mk_handle 0 (DevIndex (-1)))) (Some true)
    (Some 1%nat).

Definition start : state := mk_state webcam_first_available 0 1 [].

(** The state [WebCam(cam_id=0, shape_hw=(2,2))] leaves on that Mac, and
    the state after one round of its capture loop. *)
Definition mac_built : state :=
  snd (__init__ mac_main_thread 0 (2, 2)%nat 0 start).
Definition mac_after_bad_read : state :=
  snd (threader_body mac_capture_thread 0 mac_built).

(** A 2 x 2 x 3 frame with twelve different values. *)
Definition frame_0_to_11 : ndarray Z :=
  mk_ndarray [2; 2; 3]%nat [0; 1; 2; 3; 4; 5; 6; 7; 8; 9; 10; 11].

End Cam.

(** * gl.py *)

(** The constants of SDL2 ([SDL_scancode.h], [SDL_events.h], [SDL_video.h])
    that gl.py reads through PySDL2. *)
Module sdl2.
Definition SDL_SCANCODE_A : Z := 4.
Definition SDL_SCANCODE_Z : Z := 29.
Definition SDL_SCANCODE_1 : Z := 30.
Definition SDL_SCANCODE_0 : Z := 39.
Definition SDL_SCANCODE_RETURN : Z := 40.
Definition SDL_SCANCODE_ESCAPE : Z := 41.
Definition SDL_SCANCODE_BACKSPACE : Z := 42.
Definition SDL_SCANCODE_TAB : Z := 43.
Definition SDL_SCANCODE_SPACE : Z := 44.
Definition SDL_SCANCODE_F1 : Z := 58.
Definition SDL_SCANCODE_F2 : Z := 59.
Definition SDL_SCANCODE_F3 : Z := 60.
Definition SDL_SCANCODE_F4 : Z := 61.
Definition SDL_SCANCODE_RIGHT : Z := 79.
Definition SDL_SCANCODE_LEFT : Z := 80.
Definition SDL_SCANCODE_DOWN : Z := 81.
Definition SDL_SCANCODE_UP : Z := 82.
Definition SDL_NUM_SCANCODES : nat := 512.
Definition SDL_WINDOWEVENT : Z := 0x200.
Definition SDL_WINDOWEVENT_CLOSE : Z := 14.
End sdl2.

Module Gl.
Import sdl2.

(** [ord(c)] of a one-character string. *)
Definition ord (c : ascii) : Z := Z.of_nat (nat_of_ascii c).

(** [ord(chr(n))]: [chr] raises [ValueError] outside the code point range. *)
Definition ord_chr (n : Z) : outcome Z :=
  if (0 <=? n) && (n <? 0x110000) then Return n
  else Raise (ValueError "chr() arg not in range(0x110000)").

Definition outcome_map {A B} (f : A -> B) (o : outcome A) : outcome B :=
  match o with
  | Return a => Return (f a)
  | Raise e => Raise e
  | SysExit c => SysExit c
  | OutOfFuel => OutOfFuel
  end.

(** The attributes of a [PeripheralEvent].  The constructor sets the
    first four; [pressed_key_code] exists only once a caller assigns it. *)
Record PeripheralEvent : Type := mk_PeripheralEvent {
  keycode : pyval;
  mouse_button_state : pyval;
  mouse_posX : pyval;
  mouse_posY : pyval;
  pressed_key_code : option pyval
}.

Definition PeripheralEvent_new : PeripheralEvent :=
  mk_PeripheralEvent (PyInt (-1)) (PyInt (-1)) (PyInt (-1)) (PyInt (-1)) None.

(** The entries of the [special_keys_map] literal, in source order.  A
    Python dict literal keeps the last value written for a repeated key,
    so the map is built by inserting left to right. *)
Definition special_keys_entries : list (Z * Z) :=
  [ (SDL_SCANCODE_RETURN, 13);
    (SDL_SCANCODE_ESCAPE, 27);
    (SDL_SCANCODE_BACKSPACE, 8);
    (SDL_SCANCODE_TAB, 9);
    (SDL_SCANCODE_SPACE, 32);
    (SDL_SCANCODE_F1, 0x700000);
    (SDL_SCANCODE_F2, 0x710000);
    (SDL_SCANCODE_RETURN, 13);
    (SDL_SCANCODE_ESCAPE, 27);
    (SDL_SCANCODE_BACKSPACE, 8);
    (SDL_SCANCODE_TAB, 9);
    (SDL_SCANCODE_SPACE, 32);
    (SDL_SCANCODE_F1, 0x700000);
    (SDL_SCANCODE_F2, 0x710000);
    (SDL_SCANCODE_F3, 0x720000);
    (SDL_SCANCODE_F4, 0x730000);
    (SDL_SCANCODE_RIGHT, 0x270000);
    (SDL_SCANCODE_LEFT, 0x250000);
    (SDL_SCANCODE_DOWN, 0x280000);
    (SDL_SCANCODE_UP, 0x260000) ].

Definition special_keys_map : gmap Z Z :=
  foldl (fun m kv => <[fst kv := snd kv]> m) ∅ special_keys_entries.

(** [sdl_to_cv2_keycode].  The second digit test of the source sits
    behind a [return] and is never reached.  The branch for -1 is [pass]:
    the function ends without a [return] statement, which yields [None]. *)
Definition sdl_to_cv2_keycode (sdl_keycode : Z) : outcome pyval :=
  if (SDL_SCANCODE_A <=? sdl_keycode) && (sdl_keycode <=? SDL_SCANCODE_Z) then
    outcome_map PyInt (ord_chr (sdl_keycode - SDL_SCANCODE_A + ord "a"%char))
  else if (SDL_SCANCODE_1 <=? sdl_keycode) && (sdl_keycode <=? SDL_SCANCODE_0) then
    outcome_map PyInt (ord_chr (sdl_keycode - SDL_SCANCODE_1 + ord "1"%char))
  else
    match special_keys_map !! sdl_keycode with
    | Some _ => Return (PyInt (default (-1) (special_keys_map !! sdl_keycode)))
    | None =>
        if sdl_keycode =? -1 then Return PyNone
        else Return (PyInt (-1))
    end.

(** ** Images *)

Inductive device : Type :=
| Cpu
| Cuda (i : nat).

(** An element as the caller stores it: an integer or a float. *)
Inductive elt : Type :=
| EInt (z : Z)
| EFloat (f : spec_float).

Record tensor : Type := mk_tensor {
  t_device : device;
  t_arr : ndarray elt
}.

(** What [render] can be handed: a [torch.Tensor], an [np.ndarray], a
    [PIL.Image.Image] (given by the array [np.array] makes of it), or a
    value of any other type. *)
Inductive image : Type :=
| ImTensor (t : tensor)
| ImNdarray (a : ndarray elt)
| ImPIL (a : ndarray elt)
| ImOther.

(** binary32 arithmetic, as [torch.float32] has it. *)
Definition f32_of_Z (z : Z) : spec_float := binary_normalize 24 128 z 0 false.
Definition f32_div (x y : spec_float) : spec_float := SFdiv 24 128 x y.
Definition f32_zero : spec_float := S754_zero false.
Definition f32_one : spec_float := SFone 24 128.

(** [.float()]: the element goes to binary32.  A finite float
    [S754_finite s m e] is the number [(-1)^s * m * 2^e] in whatever
    format the array has ([np.float64] by default); it is rounded to the
    nearest binary32 number, ties to even, which leaves a binary32 number
    as it is.  Zeros, infinities and NaN stay. *)
Definition to_f32 (e : elt) : spec_float :=
  match e with
  | EInt z => f32_of_Z z
  | EFloat (S754_finite s m e) => binary_round 24 128 s m e
  | EFloat f => f
  end.

(** [torch.clamp(x, 0, 1)]; a NaN compares false both times and stays. *)
Definition clamp01 (x : spec_float) : spec_float :=
  if SFltb x f32_zero then f32_zero
  else if SFltb f32_one x then f32_one
  else x.

Definition arr_map {A B} (f : A -> B) (a : ndarray A) : ndarray B :=
  mk_ndarray (shape a) (map f (data a)).

(** [image.permute((1,0,2))]: three axes are named, so the tensor must
    have three. *)
Definition permute_102 {A} (a : ndarray A) : outcome (ndarray A) :=
  match shape a with
  | [h; w; c] =>
      Return (mk_ndarray [w; h; c]
        (flat_map (fun j =>
           flat_map (fun i => firstn c (skipn ((i * w + j) * c) (data a)))
                    (seq 0 h))
           (seq 0 w)))
  | _ => Raise (RuntimeError
           "permute(sparse_coo): number of dimensions in the tensor input does not match the length of the desired ordering of dimensions")
  end.

(** [torch.cat(ts, -1)]: the tensors agree on every axis but the last;
    row by row, the rows of the tensors are put one after the other. *)
Definition cat_last {A} (ts : list (ndarray A)) : outcome (ndarray A) :=
  match ts with
  | [] => Raise (RuntimeError "torch.cat(): expected a non-empty list of Tensors")
  | t :: _ =>
      let lead := removelast (shape t) in
      if forallb (fun u => bool_decide (shape u <> [])
                           && bool_decide (removelast (shape u) = lead)) ts
      then
        let outer := prod_list lead in
        Return (mk_ndarray
          (lead ++ [fold_right Nat.add 0%nat (map (fun u => List.last (shape u) 0%nat) ts)])
          (flat_map (fun r =>
             flat_map (fun u => nth r (chunks outer (List.last (shape u) 0%nat) (data u)) [])
                      ts)
             (seq 0 outer)))
      else Raise (RuntimeError
             "Sizes of tensors must match except in dimension")
  end.

(** [torch.ones(n0, n1, 1)] *)
Definition torch_ones (n0 n1 : nat) : ndarray spec_float :=
  mk_ndarray [n0; n1; 1%nat] (repeat f32_one (n0 * n1 * 1)).

(** [np.clip(image, 0, 255)] then [.astype(np.uint8)] of [cv2_render].
    An integer is clipped.  A float is clipped and its fraction dropped;
    it is compared as the number it is, [(-1)^s * m * 2^e], so that the
    format of the array does not matter: [f32_trunc] is that number
    rounded towards zero.  A NaN, which [np.clip] leaves, is taken to 0
    by the cast. *)
Definition f32_trunc (f : spec_float) : Z :=
  match f with
  | S754_finite s m e =>
      let v := if 0 <=? e then Z.pos m * 2 ^ e else Z.pos m / 2 ^ (- e) in
      if s then - v else v
  | _ => 0
  end.

Definition clip_uint8 (e : elt) : Z :=
  match e with
  | EInt z => Z.max 0 (Z.min z 255)
  | EFloat (S754_infinity s) => if s then 0 else 255
  | EFloat f => Z.max 0 (Z.min (f32_trunc f) 255)
  end.

(** ** The renderer *)

Inductive cudaError_t : Type :=
| cudaSuccess
| cudaErrorUnknown
| cudaErrorOther (code : Z).

Definition is_success (e : cudaError_t) : bool :=
  match e with cudaSuccess => true | _ => false end.

Definition is_unknown (e : cudaError_t) : bool :=
  match e with cudaErrorUnknown => true | _ => false end.

Inductive backend_t : Type :=
| BackendGl
| BackendOpenCV.

(** One event handed out by [SDL_PollEvent], with the keyboard array and
    the mouse as SDL has them once that event is polled. *)
Record sdl_event : Type := mk_sdl_event {
  ev_type : Z;
  ev_window_event : Z;
  key_states : nat -> bool;
  mouse_state : Z;
  mouse_x : Z;
  mouse_y : Z
}.

(** Calls that leave the interpreter, in the order they are made.  The
    torch calls run on the device that holds the tensor. *)
Inductive call : Type :=
| TorchToDevice (gpu : nat)
| TorchToCpu
| TorchFloat
| TorchDiv
| TorchClamp
| TorchPermute
| TorchOnes
| TorchCat
| SDL_Init
| SDL_GetError
| CudaGLGetDevices
| CudaGraphicsGLRegisterImage
| CudaGraphicsMapResources
| CudaGraphicsSubResourceGetMappedArray
| CudaMemcpy2DToArrayAsync (src : ndarray spec_float) (spitch wbytes h : nat)
| CudaGraphicsUnmapResources
| SDL_GetKeyboardState
| SDL_PollEvent
| SDL_GetMouseState
| SDL_GL_DeleteContext
| SDL_DestroyWindow
| SDL_Quit
| SDL_GL_SwapWindow
| GlUseProgram (bound : bool)
| GlClearColor
| GlClear
| GlBindTexture (bound : bool)
| GlBindVertexArray (bound : bool)
| GlDrawArrays
| Cv2Imshow (img : ndarray Z)
| Cv2WaitKey
| Cv2DestroyAllWindows.

Record Renderer : Type := mk_Renderer {
  window_title : string;
  gpu_id : nat;
  width : nat;
  height : nat;
  backend : backend_t;
  cuda_is_setup : bool;
  running : bool
}.

(** What the libraries answer during one call of [render]. *)
Record env : Type := mk_env {
  sdl_init : Z;
  gl_get_devices : cudaError_t;
  register_image : cudaError_t;
  map_resources : cudaError_t;
  get_mapped_array : cudaError_t;
  memcpy_2d : cudaError_t;
  unmap_resources : cudaError_t;
  wait_key : Z
}.

Record state : Type := mk_state {
  rd : Renderer;
  pending : list sdl_event;
  trace : list call
}.

Definition emit (c : call) : M state unit :=
  modify (fun s => mk_state (rd s) (pending s) (trace s ++ [c])).

Definition self : M state Renderer := fun s => (Return (rd s), s).

Definition set_running (b : bool) : M state unit :=
  modify (fun s =>
    let r := rd s in
    mk_state (mk_Renderer (window_title r) (gpu_id r) (width r) (height r)
                (backend r) (cuda_is_setup r) b)
             (pending s) (trace s)).

Definition set_cuda_is_setup (b : bool) : M state unit :=
  modify (fun s =>
    let r := rd s in
    mk_state (mk_Renderer (window_title r) (gpu_id r) (width r) (height r)
                (backend r) b (running r))
             (pending s) (trace s)).

Definition set_pending (q : list sdl_event) : M state unit :=
  modify (fun s => mk_state (rd s) q (trace s)).

Section WithEnv.
Variable E : env.

Definition cuda_setup : M state unit :=
  let* r := self in
  if cuda_is_setup r then ret tt
  else
    emit SDL_Init ;;;
    if negb (sdl_init E =? 0) then emit SDL_GetError ;;; raise SDLException
    else
      emit CudaGLGetDevices ;;;
      if is_unknown (gl_get_devices E)
      then raise (OpenGLException
                    "OpenGL context may be running on integrated graphics")
      else
        emit CudaGraphicsGLRegisterImage ;;;
        if negb (is_success (register_image E))
        then raise (CudaException "Unable to register opengl texture")
        else set_cuda_is_setup true.

Definition gl_close : M state unit :=
  set_running false ;;;
  emit SDL_GL_DeleteContext ;;;
  emit SDL_DestroyWindow ;;;
  emit SDL_Quit.

Definition gl_draw_internal : M state unit :=
  emit (GlUseProgram true) ;;;
  emit GlClearColor ;;;
  emit GlClear ;;;
  emit (GlBindTexture true) ;;;
  emit (GlBindVertexArray true) ;;;
  emit GlDrawArrays ;;;
  emit (GlBindTexture false) ;;;
  emit (GlBindVertexArray false) ;;;
  emit (GlUseProgram false) ;;;
  emit SDL_GL_SwapWindow.

(** The [for key_code in range(SDL_NUM_SCANCODES)] loop.  Its two
    statements on [key_press_tracker_array] are comparisons, so the array
    stays as [np.zeros] made it. *)
Definition scan_keys (ks : nat -> bool) (key_press_tracker_array : list Z)
    (pressed_key_code : Z) : Z :=
  fold_left
    (fun pressed key_code =>
       if ks key_code && (nth key_code key_press_tracker_array 0 =? 0)
       then Z.of_nat key_code
       else if negb (ks key_code)
               && (nth key_code key_press_tracker_array 0 =? 1)
       then pressed
       else pressed)
    (seq 0 SDL_NUM_SCANCODES) pressed_key_code.

(** The locals of [gl_step] that the event loop writes. *)
Record step_locals : Type := mk_step_locals {
  l_pressed_key_code : Z;
  l_mouse_buttonstate : Z;
  l_mouse_posX : Z;
  l_mouse_posY : Z
}.

(** The [while sdl2.SDL_PollEvent(...)] loop, one polled event per step.
    [SDL_GetMouseState] is given [mouse_posX] for both coordinates: it
    stores x, then y, into the same cell. *)
Fixpoint poll_loop (evs : list sdl_event) (key_press_tracker_array : list Z)
    (l : step_locals) : M state step_locals :=
  match evs with
  | [] => emit SDL_PollEvent ;;; ret l
  | ev :: evs' =>
      emit SDL_PollEvent ;;;
      set_pending evs' ;;;
      emit SDL_GetMouseState ;;;
      let l1 := mk_step_locals (l_pressed_key_code l) (mouse_state ev)
                  (mouse_y ev) (l_mouse_posY l) in
      (if (ev_type ev =? SDL_WINDOWEVENT)
          && (ev_window_event ev =? SDL_WINDOWEVENT_CLOSE)
       then set_running false ;;; gl_close
       else ret tt) ;;;
      (if key_states ev (Z.to_nat SDL_SCANCODE_ESCAPE)
       then set_running false ;;; gl_close ;;; sys_exit 0
       else ret tt) ;;;
      let l2 := mk_step_locals
                  (scan_keys (key_states ev) key_press_tracker_array
                     (l_pressed_key_code l1))
                  (l_mouse_buttonstate l1) (l_mouse_posX l1) (l_mouse_posY l1) in
      poll_loop evs' key_press_tracker_array l2
  end.

Definition gl_step : M state PeripheralEvent :=
  emit SDL_GetKeyboardState ;;;
  let l0 := mk_step_locals (-1) (-1) 0 0 in
  let* r := self in
  let* l :=
    (if running r then
       let key_press_tracker_array := repeat 0 SDL_NUM_SCANCODES in
       let* s := get in
       let* l := poll_loop (pending s) key_press_tracker_array l0 in
       gl_draw_internal ;;; ret l
     else ret l0) in
  let* pressed_key_code := lift (sdl_to_cv2_keycode (l_pressed_key_code l)) in
  let peripheralEvent := PeripheralEvent_new in
  ret (mk_PeripheralEvent
         (keycode peripheralEvent)
         (PyInt (l_mouse_buttonstate l))
         (PyCInt (l_mouse_posX l))
         (PyCInt (l_mouse_posY l))
         (Some pressed_key_code)).

(** The first block of [gl_render]: whatever comes in ends up as a tensor
    on a CUDA device. *)
Definition to_cuda (im : image) : M state (ndarray elt) :=
  let* r := self in
  match im with
  | ImTensor t =>
      match t_device t with
      | Cpu => emit (TorchToDevice (gpu_id r)) ;;; ret (t_arr t)
      | Cuda _ => ret (t_arr t)
      end
  | ImNdarray a => emit (TorchToDevice (gpu_id r)) ;;; ret a
  | ImPIL a => emit (TorchToDevice (gpu_id r)) ;;; ret a
  | ImOther => raise (PyException "render function received input of unknown type")
  end.

(** Lines 319-340: scale, clamp, transpose, channels. *)
Definition normalize (a : ndarray elt) : M state (ndarray spec_float) :=
  emit TorchFloat ;;;
  emit TorchDiv ;;;
  let im := arr_map (fun e => f32_div (to_f32 e) (f32_of_Z 255)) a in
  emit TorchClamp ;;;
  let im := arr_map clamp01 im in
  emit TorchPermute ;;;
  let* im := lift (permute_102 im) in
  match shape im with
  | [n0; n1; ch] =>
      if (ch =? 3)%nat then
        emit TorchOnes ;;; emit TorchCat ;;;
        lift (cat_last [im; torch_ones n0 n1])
      else if (ch =? 4)%nat then ret im
      else raise (PyException "render function received the wrong number of channels")
  | [_; _] => emit TorchCat ;;; lift (cat_last [im; im; im; im])
  | _ => raise (PyException "render function received the wrong number of channels")
  end.

(** Lines 347-369: map, get the mapped array, copy, unmap. *)
Definition upload (im : ndarray spec_float) : M state unit :=
  let* r := self in
  emit CudaGraphicsMapResources ;;;
  if negb (is_success (map_resources E))
  then raise (CudaException "Unable to map graphics resource")
  else
    emit CudaGraphicsSubResourceGetMappedArray ;;;
    if negb (is_success (get_mapped_array E))
    then raise (CudaException "Unable to get mapped array")
    else
      emit (CudaMemcpy2DToArrayAsync im (4 * 4 * width r) (4 * 4 * width r)
              (height r)) ;;;
      if negb (is_success (memcpy_2d E))
      then raise (CudaException "Unable to copy from tensor to texture")
      else
        emit CudaGraphicsUnmapResources ;;;
        if negb (is_success (unmap_resources E))
        then raise (CudaException "Unable to unmap graphics resource")
        else ret tt.

(** [gl_render]; the bare [return] of a renderer that is no longer
    running hands back [None]. *)
Definition gl_render (im : image) : M state (option PeripheralEvent) :=
  let* a := to_cuda im in
  let* im := normalize a in
  let* r := self in
  if negb (running r) then ret None
  else
    (if negb (cuda_is_setup r) then cuda_setup else ret tt) ;;;
    upload im ;;;
    let* pressed_key_code := gl_step in
    ret (Some pressed_key_code).

Definition cv2_render (im : image) : M state PeripheralEvent :=
  let* a :=
    match im with
    | ImTensor t => emit TorchToCpu ;;; ret (t_arr t)
    | ImNdarray a => ret a
    | ImPIL a => ret a
    | ImOther => raise (PyException "render function received input of unknown type")
    end in
  let img := arr_map clip_uint8 a in
  emit (Cv2Imshow img) ;;;
  emit Cv2WaitKey ;;;
  let cv2_keycode := wait_key E in
  (if cv2_keycode =? 27 then emit Cv2DestroyAllWindows ;;; sys_exit 0
   else ret tt) ;;;
  let peripheralEvent := PeripheralEvent_new in
  ret (mk_PeripheralEvent
         (keycode peripheralEvent)
         (PyInt (-1)) (PyInt (-1)) (PyInt (-1))
         (Some (PyInt cv2_keycode))).

Definition render (im : image) : M state (option PeripheralEvent) :=
  let* r := self in
  match backend r with
  | BackendGl => gl_render im
  | BackendOpenCV => let* e := cv2_render im in ret (Some e)
  end.

End WithEnv.

(** ** Vocabulary of the properties *)

Definition is_map (c : call) : bool :=
  match c with CudaGraphicsMapResources => true | _ => false end.
Definition is_get_array (c : call) : bool :=
  match c with CudaGraphicsSubResourceGetMappedArray => true | _ => false end.
Definition is_copy (c : call) : bool :=
  match c with CudaMemcpy2DToArrayAsync _ _ _ _ => true | _ => false end.
Definition is_unmap (c : call) : bool :=
  match c with CudaGraphicsUnmapResources => true | _ => false end.

(** The four calls of the upload protocol. *)
Definition is_upload_call (c : call) : bool :=
  is_map c || is_get_array c || is_copy c || is_unmap c.

(** The array behind an image, when it has one. *)
Definition image_arr (im : image) : option (ndarray elt) :=
  match im with
  | ImTensor t => Some (t_arr t)
  | ImNdarray a => Some a
  | ImPIL a => Some a
  | ImOther => None
  end.

(** Host-resident input: what the first block of [gl_render] moves. *)
Definition on_host (im : image) : bool :=
  match im with
  | ImTensor t => match t_device t with Cpu => true | Cuda _ => false end
  | ImNdarray _ | ImPIL _ => true
  | ImOther => false
  end.

(** A computation that makes no call selected by [p]. *)
Definition silent (p : call -> bool) {A} (m : M state A) : Prop :=
  forall s, List.filter p (trace (snd (m s))) = List.filter p (trace s).

(** No key is down in any event of the poll window. *)
Definition no_key_down (q : list sdl_event) : Prop :=
  Forall (fun ev => forall k, key_states ev k = false) q.

(** The calls of [upload] and its outcome, read off the four answers of
    the CUDA runtime. *)
Definition upload_calls (E : env) (im : ndarray spec_float) (r : Renderer)
    : list call :=
  CudaGraphicsMapResources ::
  (if is_success (map_resources E) then
     CudaGraphicsSubResourceGetMappedArray ::
     (if is_success (get_mapped_array E) then
        CudaMemcpy2DToArrayAsync im (4 * 4 * width r) (4 * 4 * width r) (height r) ::
        (if is_success (memcpy_2d E) then [CudaGraphicsUnmapResources] else [])
      else [])
   else []).

Definition upload_result (E : env) : outcome unit :=
  if negb (is_success (map_resources E))
  then Raise (CudaException "Unable to map graphics resource")
  else if negb (is_success (get_mapped_array E))
  then Raise (CudaException "Unable to get mapped array")
  else if negb (is_success (memcpy_2d E))
  then Raise (CudaException "Unable to copy from tensor to texture")
  else if negb (is_success (unmap_resources E))
  then Raise (CudaException "Unable to unmap graphics resource")
  else Return tt.

(** ** Sample inputs *)

Definition renderer_gl : Renderer :=
  mk_Renderer "lunar_render_window" 0 1 1 BackendGl true true.

Definition renderer_cv2 : Renderer :=
  mk_Renderer "lunar_render_window" 0 1 1 BackendOpenCV false false.

Definition all_succeed : env :=
  mk_env 0 cudaSuccess cudaSuccess cudaSuccess cudaSuccess cudaSuccess
    cudaSuccess (-1).

Definition map_fails : env :=
  mk_env 0 cudaSuccess cudaSuccess (cudaErrorOther 1) cudaSuccess cudaSuccess
    cudaSuccess (-1).

Definition copy_fails : env :=
  mk_env 0 cudaSuccess cudaSuccess cudaSuccess cudaSuccess (cudaErrorOther 1)
    cudaSuccess (-1).

(** [cv2.waitKey] reports the key a. *)
Definition key_a : env :=
  mk_env 0 cudaSuccess cudaSuccess cudaSuccess cudaSuccess cudaSuccess
    cudaSuccess 97.

(** numpy arrays of shape (1,1), (1,1,4) and (1,1,5), every entry 255. *)
Definition gray_255 : image :=
  ImNdarray (mk_ndarray [1; 1]%nat [EInt 255]).
Definition rgba_255 : image :=
  ImNdarray (mk_ndarray [1; 1; 4]%nat (repeat (EInt 255) 4)).
Definition five_channels_255 : image :=
  ImNdarray (mk_ndarray [1; 1; 5]%nat (repeat (EInt 255) 5)).

(** An event with no key down, the mouse at rest. *)
Definition idle_event : sdl_event :=
  mk_sdl_event 0 0 (fun _ => false) 0 0 0.

End Gl.

(** * Further vocabulary for cam.py *)
Module CamExt.
Import Cam.

(** The read that capture [h] is about to make brings no usable frame:
    nothing, or an image of fewer than 100 elements. *)
Definition bad_read (E : env) (s : state) (h : handle) : Prop :=
  match frame_of E (reads s) (hdev h) with
  | Some a => (size a < 100)%nat
  | None => True
  end.

Definition is_thread_start (c : call) : bool :=
  match c with ThreadStart _ => true | _ => false end.

(** A [WebCam] with both flags set. *)
Definition webcam_mirrored : WebCam :=
  mk_WebCam true true 0 (2, 2)%nat (np_zeros [2; 2; 3]%nat)
    (DevIndex 0) 1 (Some (mk_handle 0 (DevIndex 0))) (Some true)
    (Some 1%nat).

(** A world in which camera 2 delivers from its third read on although
    only [/dev/video0] is enumerated. *)
Definition camera_2_wakes : env :=
  mk_env "Ubuntu" ["/dev/video0"%string]
    (fun n d =>
       match d with
       | DevPath p =>
           if String.eqb p "/dev/video2" && (2 <=? n)%nat
           then Some frame_128 else None
       | DevIndex _ => None
       end) 0.

(** A 10 x 10 frame of two axes. *)
Definition gray_frame : ndarray Z := mk_ndarray [10; 10]%nat (repeat 0 100).

End CamExt.

(** * Further vocabulary for gl.py *)
Module GlExt.
Import sdl2 Gl.

(** The calls of [gl_render] by stage: torch calls on the image, the
    calls of [cuda_setup], the calls of the upload, and the calls of
    [gl_step] with what it calls. *)
Definition is_torch_call (c : call) : bool :=
  match c with
  | TorchToDevice _ | TorchToCpu | TorchFloat | TorchDiv | TorchClamp
  | TorchPermute | TorchOnes | TorchCat => true
  | _ => false
  end.

Definition is_setup_call (c : call) : bool :=
  match c with
  | SDL_Init | SDL_GetError | CudaGLGetDevices
  | CudaGraphicsGLRegisterImage => true
  | _ => false
  end.

Definition is_present_call (c : call) : bool :=
  match c with
  | SDL_GetKeyboardState | SDL_PollEvent | SDL_GetMouseState
  | SDL_GL_DeleteContext | SDL_DestroyWindow | SDL_Quit | SDL_GL_SwapWindow
  | GlUseProgram _ | GlClearColor | GlClear | GlBindTexture _
  | GlBindVertexArray _ | GlDrawArrays => true
  | _ => false
  end.

Definition is_cv2_call (c : call) : bool :=
  match c with
  | Cv2Imshow _ | Cv2WaitKey | Cv2DestroyAllWindows => true
  | _ => false
  end.


(** What a call of the renderer may do to the renderer: the window
    title, GPU, size and backend stay; [cuda_is_setup] is not cleared;
    [running] is not set again. *)
Definition settled (r r' : Renderer) : Prop :=
  window_title r' = window_title r
  /\ gpu_id r' = gpu_id r
  /\ width r' = width r
  /\ height r' = height r
  /\ backend r' = backend r
  /\ (cuda_is_setup r = true -> cuda_is_setup r' = true)
  /\ (running r = false -> running r' = false).

(** A computation that makes calls of class [Q] only and leaves the
    renderer [settled]. *)
Definition acts (Q : call -> bool) {A} (m : M state A) : Prop :=
  forall s,
    settled (rd s) (rd (snd (m s)))
    /\ exists l, trace (snd (m s)) = trace s ++ l /\ forallb Q l = true.

(** The calls of one [gl_render] split into its four stages, with what
    the state the call starts from says about them. *)
Definition staged (E : env) (im : image) (s : state)
    (l1 l2 l3 l4 : list call) : Prop :=
  trace (snd (gl_render E im s)) = trace s ++ l1 ++ l2 ++ l3 ++ l4
  /\ forallb is_torch_call l1 = true
  /\ forallb is_setup_call l2 = true
  /\ (l3 = [] \/ exists im', l3 = upload_calls E im' (rd s))
  /\ forallb is_present_call l4 = true
  /\ settled (rd s) (rd (snd (gl_render E im s)))
  /\ (cuda_is_setup (rd s) = true -> l2 = [])
  /\ (running (rd s) = false ->
      l2 = [] /\ l3 = [] /\ l4 = []
      /\ forall e, fst (gl_render E im s) <> Return (Some e))
  /\ (l4 <> [] -> upload_result E = Return tt).

(** A window-close event. *)
Definition is_close (ev : sdl_event) : bool :=
  (ev_type ev =? SDL_WINDOWEVENT)
  && (ev_window_event ev =? SDL_WINDOWEVENT_CLOSE).

(** A value [torch.clamp(x, 0, 1)] can return: not below 0, not above 1
    (a NaN is neither). *)
Definition in_unit (v : spec_float) : Prop :=
  SFltb v f32_zero = false /\ SFltb f32_one v = false.


(** An image [cv2.imshow] takes: two axes, or three of which the last
    has 1, 3 or 4 channels, and no row or column axis empty. *)
Definition showable {A} (a : ndarray A) : bool :=
  match shape a with
  | [h; w] => (0 <? h)%nat && (0 <? w)%nat
  | [h; w; c] =>
      (0 <? h)%nat && (0 <? w)%nat
      && ((c =? 1)%nat || (c =? 3)%nat || (c =? 4)%nat)
  | _ => false
  end.

(** The values of [np.uint8]. *)
Definition is_uint8 (z : Z) : Prop := 0 <= z <= 255.

(** ** More sample inputs *)

Definition key_a_event : sdl_event :=
  mk_sdl_event 0x300 0 (fun k => (k =? 4)%nat) 1 7 9.
Definition close_event : sdl_event :=
  mk_sdl_event SDL_WINDOWEVENT SDL_WINDOWEVENT_CLOSE (fun _ => false) 0 0 0.

(** A renderer whose texture is not registered yet, and one whose
    window has been closed. *)
Definition renderer_fresh : Renderer :=
  mk_Renderer "lunar_render_window" 0 1 1 BackendGl false true.

(** Registering the texture fails. *)
Definition register_fails : env :=
  mk_env 0 cudaSuccess (cudaErrorOther 1) cudaSuccess cudaSuccess cudaSuccess
    cudaSuccess (-1).

(** numpy arrays of shape (1,2,3) and (1,2,4). *)
Definition rgb_1x2 : ndarray elt :=
  mk_ndarray [1; 2; 3]%nat (map EInt [-7; 128; 255; 4; 5; 300]).

End GlExt.

(** * Reasoning about computations *)

Section MonadLemmas.
Context {S : Type}.

Lemma bind_Return {A B} (m : M S A) (k : A -> M S B) s b s' :
  bind m k s = (Return b, s') ->
  exists a s1, m s = (Return a, s1) /\ k a s1 = (Return b, s').
Proof.
  unfold bind. destruct (m s) as [[a|e|c|] s1]; intros H; try discriminate.
  exists a, s1. split; [reflexivity | exact H].
Qed.

End MonadLemmas.

Ltac inv_bind H :=
  repeat (let a := fresh "a" in
          let s := fresh "s" in
          let H1 := fresh "H" in
          apply bind_Return in H as (a & s & H1 & H)).

(** * Properties of cam.py *)
Module CamProofs.
Import Cam.
Local Open Scope nat_scope.

(** ** Chunks and flips *)

Lemma rev_is_reverse {A} (l : list A) : rev l = reverse l.
Proof. unfold reverse. apply rev_alt. Qed.

Lemma chunks_length {A} k n (l : list A) : length (chunks k n l) = k.
Proof. revert l. induction k as [|k IH]; intros l; simpl; [|rewrite IH]; reflexivity. Qed.

Lemma chunks_lookup {A} k n (l : list A) i :
  i < k -> chunks k n l !! i = Some (take n (drop (i * n) l)).
Proof.
  revert l i. induction k as [|k IH]; intros l [|i] Hi; simpl; try lia.
  - reflexivity.
  - rewrite IH by lia. rewrite drop_drop. reflexivity.
Qed.

Lemma chunks_uniform {A} k n (l : list A) :
  k * n <= length l -> Forall (fun c => length c = n) (chunks k n l).
Proof.
  revert l. induction k as [|k IH]; intros l Hl; simpl; constructor.
  - rewrite length_take. simpl in Hl. lia.
  - apply IH. rewrite length_drop. simpl in Hl. lia.
Qed.

Lemma concat_uniform_length {A} n (ll : list (list A)) :
  Forall (fun c => length c = n) ll -> length (concat ll) = length ll * n.
Proof.
  induction 1 as [|c ll Hc _ IH]; simpl; [reflexivity|].
  rewrite length_app, IH, Hc. reflexivity.
Qed.

Lemma concat_uniform_lookup {A} n (ll : list (list A)) i r :
  Forall (fun c => length c = n) ll -> r < n ->
  concat ll !! (i * n + r) = ll !! i ≫= (fun c => c !! r).
Proof.
  intros Hll Hr. revert i.
  induction Hll as [|c ll Hc _ IH]; intros i; simpl.
  - rewrite !lookup_nil. reflexivity.
  - destruct i as [|i]; simpl.
    + apply lookup_app_l. lia.
    + rewrite lookup_app_r by lia.
      replace (n + i * n + r - length c) with (i * n + r) by lia.
      apply IH.
Qed.

(** One block of [d] chunks, the chunks put in reverse order. *)
Lemma flip_block_length {A} d inner (blk : list A) :
  length blk = d * inner ->
  length (concat (rev (chunks d inner blk))) = d * inner.
Proof.
  intros Hl.
  rewrite (concat_uniform_length inner).
  - rewrite length_rev, chunks_length. reflexivity.
  - rewrite rev_is_reverse. apply Forall_reverse. apply chunks_uniform. lia.
Qed.

Lemma flip_block_lookup {A} d inner (blk : list A) k r :
  length blk = d * inner -> k < d -> r < inner ->
  concat (rev (chunks d inner blk)) !! (k * inner + r)
  = blk !! ((d - 1 - k) * inner + r).
Proof.
  intros Hl Hk Hr.
  rewrite (concat_uniform_lookup inner), rev_is_reverse; try assumption.
  - rewrite reverse_lookup by (rewrite chunks_length; exact Hk).
    rewrite chunks_length.
    replace (d - S k) with (d - 1 - k) by lia.
    rewrite chunks_lookup by lia. simpl.
    rewrite lookup_take_lt by exact Hr.
    apply lookup_drop.
  - rewrite rev_is_reverse. apply Forall_reverse. apply chunks_uniform. lia.
Qed.

Section FlipBlocks.
Context {A : Type}.
Variables outer d inner : nat.

Lemma flip_blocks_uniform (l : list A) :
  length l = outer * (d * inner) ->
  Forall (fun c => length c = d * inner)
    (map (fun blk => concat (rev (chunks d inner blk)))
         (chunks outer (d * inner) l)).
Proof.
  intros Hl. apply Forall_fmap.
  eapply Forall_impl; [apply chunks_uniform; lia|].
  intros blk Hblk. simpl. apply flip_block_length. exact Hblk.
Qed.

Lemma flip_blocks_length (l : list A) :
  length l = outer * (d * inner) -> length (flip_blocks outer d inner l) = length l.
Proof.
  intros Hl. unfold flip_blocks.
  rewrite (concat_uniform_length (d * inner)) by (apply flip_blocks_uniform; exact Hl).
  rewrite length_map, chunks_length. lia.
Qed.

Lemma flip_blocks_lookup (l : list A) o k r :
  length l = outer * (d * inner) -> o < outer -> k < d -> r < inner ->
  flip_blocks outer d inner l !! (o * (d * inner) + (k * inner + r))
  = l !! (o * (d * inner) + ((d - 1 - k) * inner + r)).
Proof.
  intros Hl Ho Hk Hr. unfold flip_blocks.
  assert (Hin : k * inner + r < d * inner) by nia.
  rewrite (concat_uniform_lookup (d * inner))
    by (try apply flip_blocks_uniform; assumption).
  rewrite list_lookup_fmap, chunks_lookup by exact Ho. simpl.
  assert (Hblk : length (take (d * inner) (drop (o * (d * inner)) l)) = d * inner).
  { rewrite length_take, length_drop. nia. }
  rewrite flip_block_lookup by assumption.
  rewrite lookup_take_lt by nia.
  apply lookup_drop.
Qed.

End FlipBlocks.

Lemma at3_unfold {A} (a : ndarray A) h w c i j x :
  shape a = [h; w; c] -> i < h -> j < w -> x < c ->
  at3 a i j x = data a !! ((i * w + j) * c + x).
Proof.
  intros Hsh Hi Hj Hx. unfold at3. rewrite Hsh.
  apply Nat.ltb_lt in Hi, Hj, Hx. rewrite Hi, Hj, Hx. reflexivity.
Qed.

(** [np.flip(img, axis=2)] on a three-dimensional array. *)
Lemma np_flip_axis_2 {A} (img : ndarray A) h w c :
  shape img = [h; w; c] -> length (data img) = h * w * c ->
  exists r,
    np_flip img 2 = Return r
    /\ shape r = [h; w; c]
    /\ length (data r) = h * w * c
    /\ forall i j x, i < h -> j < w -> x < c ->
         at3 r i j x = at3 img i j (c - 1 - x).
Proof.
  intros Hsh Hlen. unfold np_flip. rewrite Hsh. simpl (_ <? _).
  eexists. split; [reflexivity|]. simpl shape. simpl data.
  unfold flip_data. cbn [firstn skipn nth prod_list fold_right].
  assert (Hl : length (data img) = h * (w * 1) * (c * 1)) by lia.
  split; [reflexivity | split].
  - rewrite flip_blocks_length; lia.
  - intros i j x Hi Hj Hx.
    rewrite (at3_unfold _ h w c) by (simpl; auto).
    rewrite (at3_unfold img h w c) by (auto; lia).
    simpl data.
    replace ((i * w + j) * c + x)
      with ((i * w + j) * (c * 1) + (x * 1 + 0)) by lia.
    rewrite flip_blocks_lookup by (try lia; nia).
    f_equal. lia.
Qed.

(** [np.flip(img, 1)] on a three-dimensional array. *)
Lemma np_flip_axis_1 {A} (img : ndarray A) h w c :
  shape img = [h; w; c] -> length (data img) = h * w * c ->
  exists r,
    np_flip img 1 = Return r
    /\ shape r = [h; w; c]
    /\ length (data r) = h * w * c
    /\ forall i j x, i < h -> j < w -> x < c ->
         at3 r i j x = at3 img i (w - 1 - j) x.
Proof.
  intros Hsh Hlen. unfold np_flip. rewrite Hsh. simpl (_ <? _).
  eexists. split; [reflexivity|]. simpl shape. simpl data.
  unfold flip_data. cbn [firstn skipn nth prod_list fold_right].
  assert (Hl : length (data img) = h * 1 * (w * (c * 1))) by lia.
  split; [reflexivity | split].
  - rewrite flip_blocks_length; lia.
  - intros i j x Hi Hj Hx.
    rewrite (at3_unfold _ h w c) by (simpl; auto).
    rewrite (at3_unfold img h w c) by (auto; lia).
    simpl data.
    replace ((i * w + j) * c + x)
      with (i * (w * (c * 1)) + (j * (c * 1) + x)) by lia.
    rewrite flip_blocks_lookup by lia.
    f_equal. lia.
Qed.

(** C7.  On a frame of shape (H,W,3) [process_raw_image] returns a frame
    of the same shape; its pixel (i, j, c) is the pixel of the raw frame
    at the same row, at column W-1-j if [do_mirror] is set and j if not,
    and at channel 2-c if [shift_colors] is set and c if not.  It is the
    mirror step applied to the result of the colour step, and with both
    flags off it is the raw frame. *)
Theorem process_raw_image_spec (o : WebCam) (img : ndarray Z) h w :
  shape img = [h; w; 3] -> length (data img) = h * w * 3 ->
  exists img1 r,
    (if shift_colors o then np_flip img 2 else Return img) = Return img1
    /\ (if do_mirror o then np_flip img1 1 else Return img1) = Return r
    /\ process_raw_image o img = Return r
    /\ shape r = [h; w; 3]
    /\ length (data r) = h * w * 3
    /\ (forall i j c, i < h -> j < w -> c < 3 ->
          at3 r i j c
          = at3 img i (if do_mirror o then w - 1 - j else j)
                      (if shift_colors o then 2 - c else c))
    /\ (shift_colors o = false -> do_mirror o = false -> r = img).
Proof.
  intros Hsh Hlen. unfold process_raw_image.
  destruct (np_flip_axis_2 img h w 3 Hsh Hlen) as (c2 & Hc2 & Hsh2 & Hlen2 & Hat2).
  destruct (shift_colors o), (do_mirror o).
  - destruct (np_flip_axis_1 c2 h w 3 Hsh2 Hlen2) as (r & Hr & Hshr & Hlenr & Hatr).
    exists c2, r. rewrite Hc2, Hr. repeat split; try assumption; try discriminate.
    intros i j c Hi Hj Hc. rewrite Hatr by assumption.
    apply Hat2; lia.
  - exists c2, c2. rewrite Hc2. repeat split; try assumption; try discriminate.
  - destruct (np_flip_axis_1 img h w 3 Hsh Hlen) as (r & Hr & Hshr & Hlenr & Hatr).
    exists img, r. rewrite Hr. repeat split; try assumption; try discriminate.
  - exists img, img. repeat split; try assumption; reflexivity.
Qed.

(** The default flags (colours shifted, no mirror) on a 2 x 2 frame. *)
Lemma process_raw_image_spec_witness :
  exists r,
    process_raw_image webcam_first_available frame_0_to_11 = Return r
    /\ data r = [2; 1; 0; 5; 4; 3; 8; 7; 6; 11; 10; 9]%Z
    /\ at3 r 1 0 2 = at3 frame_0_to_11 1 0 0.
Proof.
  destruct (process_raw_image_spec webcam_first_available frame_0_to_11 2 2)
    as (img1 & r & _ & _ & Hr & _ & _ & Hat & _); [reflexivity | reflexivity | ].
  exists r. split; [exact Hr | split].
  - vm_compute in Hr. inversion Hr. reflexivity.
  - apply (Hat 1 0 2); lia.
Defined.

(** ** Reading a frame *)

(** C8.  [get_raw_image] raises nothing once [self.cam] exists.  It
    returns [None] exactly when the device read gave [None] or an image
    of fewer than 100 bytes, and the image itself otherwise. *)
Theorem get_raw_image_spec E s h :
  cam (obj s) = Some h ->
  let read := frame_of E (reads s) (hdev h) in
  exists r s',
    get_raw_image E s = (Return r, s')
    /\ (r = None <->
          read = None \/ exists a, read = Some a /\ nbytes a < 100)
    /\ (forall a, read = Some a -> 100 <= nbytes a -> r = Some a).
Proof.
  intros Hcam. destruct s as [o rd n tr]. simpl in Hcam. cbv zeta.
  unfold get_raw_image, cam_read, self_cam, self, bind. cbn.
  rewrite Hcam. cbn.
  unfold nbytes, itemsize_uint8.
  destruct (frame_of E rd (hdev h)) as [a|] eqn:Hread.
  - match goal with
    | |- context [if ?c then _ else _] => destruct c eqn:Hsz
    end; cbn.
    + apply Nat.leb_le in Hsz. eexists _, _. split; [reflexivity|]. split.
      * split; [intros _; right; exists a; split; [reflexivity | lia] | reflexivity].
      * intros a' Ha' Hge. inversion Ha'; subst. lia.
    + apply Nat.leb_gt in Hsz. eexists _, _. split; [reflexivity|]. split.
      * split; [discriminate|].
        intros [Hn | (a' & Ha' & Hlt)]; [discriminate|].
        inversion Ha'; subst. lia.
      * intros a' Ha' _. exact Ha'.
  - cbn. eexists _, _. split; [reflexivity|]. split.
    + split; [intros _; left; reflexivity | reflexivity].
    + intros a Ha. discriminate.
Qed.

(** The second read of the second camera: a frame of 300 bytes. *)
Lemma get_raw_image_spec_witness :
  exists r s',
    get_raw_image second_camera_wakes
      (mk_state (with_cam (mk_handle 1 (DevPath "/dev/video1"))
                   webcam_first_available) 1 2 [])
    = (Return r, s')
    /\ r = Some frame_128.
Proof.
  destruct (get_raw_image_spec second_camera_wakes
              (mk_state (with_cam (mk_handle 1 (DevPath "/dev/video1"))
                           webcam_first_available) 1 2 [])
              (mk_handle 1 (DevPath "/dev/video1")) eq_refl)
    as (r & s' & Hrun & _ & Hsome).
  exists r, s'. split; [exact Hrun|].
  apply Hsome; [reflexivity | vm_compute; lia].
Defined.

(** ** What leaves [img_last] alone *)

Lemma keeps_ret {A} (a : A) : keeps_img_last (ret a).
Proof. intros s. reflexivity. Qed.

Lemma keeps_raise {A} e : keeps_img_last (@raise state A e).
Proof. intros s. reflexivity. Qed.

Lemma keeps_out_of_fuel {A} : keeps_img_last (@out_of_fuel state A).
Proof. intros s. reflexivity. Qed.

Lemma keeps_self : keeps_img_last self.
Proof. intros s. reflexivity. Qed.

Lemma keeps_fresh : keeps_img_last fresh.
Proof. intros s. reflexivity. Qed.

Lemma keeps_emit c : keeps_img_last (emit c).
Proof. intros s. reflexivity. Qed.

Lemma keeps_set_obj (g : WebCam -> WebCam) :
  (forall o, img_last (g o) = img_last o) ->
  keeps_img_last (modify (set_obj g)).
Proof. intros Hg s. simpl. apply Hg. Qed.

Lemma keeps_bind {A B} (m : M state A) (k : A -> M state B) :
  keeps_img_last m -> (forall a, keeps_img_last (k a)) ->
  keeps_img_last (bind m k).
Proof.
  intros Hm Hk s. specialize (Hm s). unfold bind.
  destruct (m s) as [[a|e|c|] s1]; simpl in *; try exact Hm.
  rewrite Hk. exact Hm.
Qed.

Lemma keeps_if {A} (b : bool) (m1 m2 : M state A) :
  keeps_img_last m1 -> keeps_img_last m2 ->
  keeps_img_last (if b then m1 else m2).
Proof. destruct b; auto. Qed.

Create HintDb keeps.
#[local] Hint Resolve keeps_ret keeps_raise keeps_out_of_fuel keeps_self
  keeps_fresh keeps_emit keeps_if : keeps.

Ltac keep :=
  repeat first
    [ solve [ auto with keeps ]
    | apply keeps_bind; [ | intros ? ]
    | apply keeps_set_obj; intros ?; reflexivity
    | apply keeps_if
    | match goal with
      | |- keeps_img_last (match ?x with _ => _ end) => destruct x
      end ].

Lemma keeps_self_cam : keeps_img_last self_cam.
Proof. unfold self_cam. keep. Qed.

Lemma keeps_open_capture d : keeps_img_last (open_capture d).
Proof. unfold open_capture. keep. Qed.

#[local] Hint Resolve keeps_self_cam keeps_open_capture : keeps.

Lemma keeps_cam_read E : keeps_img_last (cam_read E).
Proof. unfold cam_read. keep; intros s; reflexivity. Qed.

Lemma keeps_release E : keeps_img_last (release E).
Proof. unfold release. keep. Qed.

Lemma keeps_set_cap_props : keeps_img_last set_cap_props.
Proof. unfold set_cap_props. cbv zeta. keep. Qed.

#[local] Hint Resolve keeps_cam_read keeps_release keeps_set_cap_props : keeps.

Lemma keeps_init_ubuntu_loop E fuel paths ptr :
  keeps_img_last (init_ubuntu_loop E fuel paths ptr).
Proof.
  revert paths ptr. induction fuel as [|fuel IH]; intros paths ptr;
    cbn [init_ubuntu_loop]; keep.
Qed.

#[local] Hint Resolve keeps_init_ubuntu_loop : keeps.

Lemma keeps_init_ubuntu E fuel : keeps_img_last (init_ubuntu E fuel).
Proof. unfold init_ubuntu. cbv zeta. keep. Qed.

Lemma keeps_init_mac : keeps_img_last init_mac.
Proof. unfold init_mac. cbv zeta. keep. Qed.

#[local] Hint Resolve keeps_init_ubuntu keeps_init_mac : keeps.

Lemma keeps_smart_init E fuel : keeps_img_last (smart_init E fuel).
Proof. unfold smart_init. keep. Qed.

Lemma keeps_get_raw_image E : keeps_img_last (get_raw_image E).
Proof. unfold get_raw_image. keep. Qed.

#[local] Hint Resolve keeps_smart_init keeps_get_raw_image : keeps.

Lemma init_leaves_zeros E cam_id shape_hw fuel s0 :
  img_last (obj (snd (__init__ E cam_id shape_hw fuel s0)))
  = np_zeros [fst shape_hw; snd shape_hw; 3].
Proof.
  unfold __init__. unfold bind at 1. cbn [modify].
  match goal with
  | |- img_last (obj (snd (?m ?s))) = _ =>
      assert (Hk : keeps_img_last m) by keep;
      rewrite (Hk s)
  end.
  reflexivity.
Qed.

Lemma bad_read_keeps E fuel s :
  (forall a, fst (get_raw_image E s) <> Return (Some a)) ->
  img_last (obj (snd (threader_body E fuel s))) = img_last (obj s).
Proof.
  intros Hbad. unfold threader_body. unfold bind at 1. unfold bind at 1.
  pose proof (keeps_get_raw_image E s) as Hg.
  destruct (get_raw_image E s) as [[[a|]|e|c|] s1]; simpl in Hg;
    try exact Hg.
  - exfalso. apply (Hbad a). reflexivity.
  - rewrite <- Hg.
    match goal with
    | |- img_last (obj (snd (match ?m s1 with _ => _ end))) = _ =>
        assert (Hk : keeps_img_last m) by keep;
        specialize (Hk s1); destruct (m s1) as [[[]|e|c|] s2]; simpl in *;
          exact Hk
    end.
Qed.

(** ** The frame before the first publish *)

Lemma np_zeros_all_zero sh : Forall (fun v => v = 0%Z) (data (np_zeros sh)).
Proof.
  unfold np_zeros. simpl. apply Forall_forall. intros v Hv.
  apply list_elem_of_In in Hv. apply repeat_spec in Hv. exact Hv.
Qed.

(** C6.  In every state no frame has been published to, [get_img]
    returns the array [__init__] made: shape (height, width, 3), all
    height * width * 3 entries zero. *)
Theorem get_img_before_first_publish cam_id shape_hw s :
  no_frame_published cam_id shape_hw s ->
  get_img (obj s) = np_zeros [fst shape_hw; snd shape_hw; 3]
  /\ shape (get_img (obj s)) = [fst shape_hw; snd shape_hw; 3]
  /\ length (data (get_img (obj s))) = fst shape_hw * snd shape_hw * 3
  /\ Forall (fun v => v = 0%Z) (data (get_img (obj s))).
Proof.
  intros Hs.
  assert (Hz : get_img (obj s) = np_zeros [fst shape_hw; snd shape_hw; 3]).
  { unfold get_img.
    induction Hs as [E fuel s0 | E s _ IH | E fuel s _ IH | E fuel s _ IH Hbad].
    - apply init_leaves_zeros.
    - rewrite keeps_release. exact IH.
    - rewrite keeps_smart_init. exact IH.
    - rewrite bad_read_keeps by exact Hbad. exact IH. }
  rewrite Hz. repeat split.
  - simpl. rewrite repeat_length. lia.
  - apply np_zeros_all_zero.
Qed.

(** On a Mac whose camera delivers nothing, after construction and one
    round of the capture loop. *)
Lemma get_img_before_first_publish_witness :
  get_img (obj mac_after_bad_read)
  = mk_ndarray [2; 2; 3] [0; 0; 0; 0; 0; 0; 0; 0; 0; 0; 0; 0]%Z.
Proof.
  apply (get_img_before_first_publish 0 (2, 2)).
  unfold mac_after_bad_read, mac_built.
  apply nfp_bad_read; [apply nfp_init | ].
  intros a. vm_compute. discriminate.
Defined.

(** ** Device acquisition *)

(** [init_ubuntu] runs inside [__init__], at [self.smart_init()], when
    [self.thread] is not assigned yet.  Having opened its first device,
    the first [release] of the loop reads [self.thread] and raises. *)
Lemma init_on_ubuntu_state E cam_id shape_hw fuel s0 p0 rest :
  os_type E = "Ubuntu"%string -> glob_video E = p0 :: rest ->
  let h := mk_handle (next_id s0)
             (DevPath (if (cam_id =? -1)%Z then p0
                       else ("/dev/video" +:+ pretty cam_id)%string)) in
  __init__ E cam_id shape_hw (S fuel) s0
  = (Raise (AttributeError "'WebCam' object has no attribute 'thread'"),
     mk_state
       (with_threader_active false (with_cam h (init_fields cam_id shape_hw)))
       (reads s0) (S (next_id s0)) (trace s0 ++ [Glob; VideoCapture h])).
Proof.
  intros Hos Hglob. cbv zeta. destruct s0 as [o r n tr].
  unfold __init__, smart_init, init_ubuntu. rewrite Hos, Hglob.
  unfold bind, release. cbn -[pretty Z.eqb].
  rewrite <- List.app_assoc. reflexivity.
Qed.

Lemma open_handles_snoc tr c :
  open_handles (tr ++ [c]) = track_handle (open_handles tr) c.
Proof. unfold open_handles. rewrite fold_left_app. reflexivity. Qed.

Lemma open_handles_glob_open tr h :
  open_handles (tr ++ [Glob; VideoCapture h]) = open_handles tr ++ [h].
Proof.
  change (tr ++ [Glob; VideoCapture h])
    with (tr ++ [Glob] ++ [VideoCapture h]).
  rewrite List.app_assoc, !open_handles_snoc. reflexivity.
Qed.

(** C2.  Device acquisition with the selector "first available" never
    gets to a retry.  For every non-empty enumeration, [WebCam(-1, ...)]
    on Ubuntu enumerates, opens the first enumerated path, and raises
    [AttributeError] at the first [release] of the loop of
    [init_ubuntu]: [release] joins [self.thread], which [__init__]
    assigns only after [smart_init] has returned.  That handle is not
    released, no other path is opened and no frame is read, whatever the
    cameras would deliver. *)
Theorem init_ubuntu_first_release_raises E shape_hw fuel s0 p0 rest :
  os_type E = "Ubuntu"%string -> glob_video E = p0 :: rest ->
  let h := mk_handle (next_id s0) (DevPath p0) in
  exists s',
    __init__ E (-1) shape_hw (S fuel) s0
    = (Raise (AttributeError "'WebCam' object has no attribute 'thread'"), s')
    /\ trace s' = trace s0 ++ [Glob; VideoCapture h]
    /\ open_handles (trace s') = open_handles (trace s0) ++ [h]
    /\ reads s' = reads s0
    /\ thread (obj s') = None.
Proof.
  intros Hos Hglob. cbv zeta.
  eexists. split.
  - exact (init_on_ubuntu_state E (-1) shape_hw fuel s0 p0 rest Hos Hglob).
  - cbn [trace reads obj]. split; [reflexivity|].
    split; [apply open_handles_glob_open|]. split; reflexivity.
Qed.

(** Two cameras, the second delivering frames from its second read on:
    the constructor raises with [/dev/video0] open and nothing read. *)
Lemma init_ubuntu_first_release_raises_witness :
  exists s',
    __init__ second_camera_wakes (-1) (2, 2) 1 start
    = (Raise (AttributeError "'WebCam' object has no attribute 'thread'"), s')
    /\ trace s' = [Glob; VideoCapture (mk_handle 1 (DevPath "/dev/video0"))]
    /\ open_handles (trace s') = [mk_handle 1 (DevPath "/dev/video0")]
    /\ reads s' = 0
    /\ thread (obj s') = None.
Proof.
  exact (init_ubuntu_first_release_raises second_camera_wakes (2, 2) 0 start
           "/dev/video0" ["/dev/video1"%string] eq_refl eq_refl).
Defined.

End CamProofs.

(** * Properties of gl.py *)
Module GlProofs.
Import sdl2 Gl.

(** ** Key codes *)

Lemma special_keys_lookup (k : Z) :
  special_keys_map !! k =
    if k =? 40 then Some 13 else if k =? 41 then Some 27
    else if k =? 42 then Some 8 else if k =? 43 then Some 9
    else if k =? 44 then Some 32
    else if k =? 58 then Some 0x700000 else if k =? 59 then Some 0x710000
    else if k =? 60 then Some 0x720000 else if k =? 61 then Some 0x730000
    else if k =? 79 then Some 0x270000 else if k =? 80 then Some 0x250000
    else if k =? 81 then Some 0x280000 else if k =? 82 then Some 0x260000
    else None.
Proof.
  unfold special_keys_map, special_keys_entries. cbn [foldl fst snd].
  unfold SDL_SCANCODE_RETURN, SDL_SCANCODE_ESCAPE, SDL_SCANCODE_BACKSPACE,
    SDL_SCANCODE_TAB, SDL_SCANCODE_SPACE, SDL_SCANCODE_F1, SDL_SCANCODE_F2,
    SDL_SCANCODE_F3, SDL_SCANCODE_F4, SDL_SCANCODE_RIGHT, SDL_SCANCODE_LEFT,
    SDL_SCANCODE_DOWN, SDL_SCANCODE_UP.
  repeat (rewrite lookup_insert; case_decide;
          [ subst k; reflexivity | ]).
  rewrite lookup_empty.
  repeat match goal with
         | H : ?c <> k |- _ =>
             let E := fresh in
             destruct (Z.eqb_spec k c) as [E|_]; [ symmetry in E; contradiction | clear H ]
         end.
  reflexivity.
Qed.

Lemma sdl_to_cv2_keycode_letter (i : Z) :
  0 <= i < 26 ->
  sdl_to_cv2_keycode (SDL_SCANCODE_A + i) = Return (PyInt (ord "a"%char + i)).
Proof.
  intros Hi. unfold sdl_to_cv2_keycode, SDL_SCANCODE_A, SDL_SCANCODE_Z.
  replace ((4 <=? 4 + i) && (4 + i <=? 29)) with true
    by (symmetry; apply andb_true_intro; split; apply Z.leb_le; lia).
  unfold ord_chr. change (ord "a"%char) with 97.
  replace ((0 <=? 4 + i - 4 + 97) && (4 + i - 4 + 97 <? 1114112)) with true
    by (symmetry; apply andb_true_intro; split;
        [apply Z.leb_le | apply Z.ltb_lt]; lia).
  simpl. do 2 f_equal. lia.
Qed.

Lemma sdl_to_cv2_keycode_digit_1_to_9 (i : Z) :
  0 <= i < 9 ->
  sdl_to_cv2_keycode (SDL_SCANCODE_1 + i) = Return (PyInt (ord "1"%char + i)).
Proof.
  intros Hi.
  assert (Hc : i = 0 \/ i = 1 \/ i = 2 \/ i = 3 \/ i = 4 \/ i = 5 \/ i = 6
               \/ i = 7 \/ i = 8) by lia.
  repeat destruct Hc as [-> | Hc]; try subst i; vm_compute; reflexivity.
Qed.

Lemma sdl_to_cv2_keycode_escape :
  sdl_to_cv2_keycode SDL_SCANCODE_ESCAPE = Return (PyInt 27).
Proof. vm_compute. reflexivity. Qed.

(** The arrow keys and F1 to F4 get eight codes of their own: pairwise
    different, and above every code a letter, digit or control key gets. *)
Lemma sdl_to_cv2_keycode_arrows_function_keys :
  map sdl_to_cv2_keycode
      [SDL_SCANCODE_F1; SDL_SCANCODE_F2; SDL_SCANCODE_F3; SDL_SCANCODE_F4;
       SDL_SCANCODE_RIGHT; SDL_SCANCODE_LEFT; SDL_SCANCODE_DOWN; SDL_SCANCODE_UP]
  = map (fun z => Return (PyInt z))
      [0x700000; 0x710000; 0x720000; 0x730000;
       0x270000; 0x250000; 0x280000; 0x260000]
  /\ NoDup [0x700000; 0x710000; 0x720000; 0x730000;
            0x270000; 0x250000; 0x280000; 0x260000]
  /\ Forall (fun z => 127 < z)
            [0x700000; 0x710000; 0x720000; 0x730000;
             0x270000; 0x250000; 0x280000; 0x260000].
Proof.
  split; [vm_compute; reflexivity | split].
  - repeat (apply NoDup_cons_2;
            [rewrite ?elem_of_cons, elem_of_nil; lia | ]).
    apply NoDup_nil_2.
  - repeat (apply Forall_cons_2; [lia | ]). apply Forall_nil_2.
Qed.

Lemma sdl_to_cv2_keycode_minus_1 :
  sdl_to_cv2_keycode (-1) = Return PyNone.
Proof. vm_compute. reflexivity. Qed.

(** C9 (digit row).  The scancode of the key 0 follows that of 9, and the
    digit branch adds the offset from the key 1 to the code of the
    character 1: the key 0 comes out as 58, the colon, not as 48. *)
Theorem sdl_to_cv2_keycode_digit_0 :
  sdl_to_cv2_keycode SDL_SCANCODE_0 = Return (PyInt (ord ":"%char))
  /\ ord ":"%char = 58 /\ ord "0"%char = 48.
Proof. repeat split; vm_compute; reflexivity. Qed.

(** ** The event snapshot *)

Lemma scan_keys_none ks tracker p :
  (forall k, ks k = false) -> scan_keys ks tracker p = p.
Proof.
  intros Hks. unfold scan_keys.
  generalize (seq 0 SDL_NUM_SCANCODES). intros l. revert p.
  induction l as [|k l IH]; intros p; simpl; [reflexivity|].
  rewrite Hks. simpl.
  destruct (nth k tracker 0 =? 1); apply IH.
Qed.

Lemma poll_loop_no_key evs tracker l s :
  no_key_down evs ->
  exists l' s',
    poll_loop evs tracker l s = (Return l', s')
    /\ l_pressed_key_code l' = l_pressed_key_code l.
Proof.
  intros Hq. revert l s.
  induction Hq as [|ev evs Hev _ IH]; intros l s.
  - eexists _, _. split; reflexivity.
  - cbn -[scan_keys].
    rewrite Hev, scan_keys_none by exact Hev.
    destruct ((ev_type ev =? SDL_WINDOWEVENT)
              && (ev_window_event ev =? SDL_WINDOWEVENT_CLOSE));
      cbn;
      match goal with
      | |- context [poll_loop evs tracker ?l1 ?s1] =>
          destruct (IH l1 s1) as (l' & s' & Hrun & Hl)
      end; exists l', s'; (split; [exact Hrun | exact Hl]).
Qed.

Lemma gl_step_keycode s e s' :
  gl_step s = (Return e, s') -> keycode e = PyInt (-1).
Proof.
  unfold gl_step. cbv zeta. intros H. inv_bind H.
  inversion H. reflexivity.
Qed.

Lemma gl_step_pressed_assigned s e s' :
  gl_step s = (Return e, s') -> is_Some (pressed_key_code e).
Proof.
  unfold gl_step. cbv zeta. intros H. inv_bind H.
  inversion H. simpl. eauto.
Qed.

Lemma gl_step_no_key s :
  no_key_down (pending s) ->
  exists e s', gl_step s = (Return e, s') /\ pressed_key_code e = Some PyNone.
Proof.
  intros Hq. unfold gl_step. cbn -[poll_loop sdl_to_cv2_keycode repeat].
  destruct (running (rd s)).
  - unfold bind, get. cbn -[poll_loop sdl_to_cv2_keycode repeat].
    edestruct (poll_loop_no_key (pending s)) as (l' & s1 & -> & Hl);
      [exact Hq|].
    cbn -[sdl_to_cv2_keycode]. rewrite Hl. cbn -[sdl_to_cv2_keycode].
    rewrite sdl_to_cv2_keycode_minus_1. cbn. eexists _, _. split; reflexivity.
  - cbn -[sdl_to_cv2_keycode].
    rewrite sdl_to_cv2_keycode_minus_1. cbn. eexists _, _. split; reflexivity.
Qed.

(** ** Which calls a computation makes *)

Section Silent.
Variable p : call -> bool.

Lemma silent_ret {A} (a : A) : silent p (ret a).
Proof. intros s. reflexivity. Qed.

Lemma silent_raise {A} e : silent p (@raise state A e).
Proof. intros s. reflexivity. Qed.

Lemma silent_sys_exit {A} c : silent p (@sys_exit state A c).
Proof. intros s. reflexivity. Qed.

Lemma silent_lift {A} (o : outcome A) : silent p (lift o).
Proof. intros s. reflexivity. Qed.

Lemma silent_self : silent p self.
Proof. intros s. reflexivity. Qed.

Lemma silent_get : silent p get.
Proof. intros s. reflexivity. Qed.

Lemma silent_set_running b : silent p (set_running b).
Proof. intros s. reflexivity. Qed.

Lemma silent_set_cuda_is_setup b : silent p (set_cuda_is_setup b).
Proof. intros s. reflexivity. Qed.

Lemma silent_set_pending q : silent p (set_pending q).
Proof. intros s. reflexivity. Qed.

Lemma silent_emit c : p c = false -> silent p (emit c).
Proof.
  intros Hc s. simpl. rewrite List.filter_app. simpl.
  rewrite Hc. apply app_nil_r.
Qed.

Lemma silent_bind {A B} (m : M state A) (k : A -> M state B) :
  silent p m -> (forall a, silent p (k a)) -> silent p (bind m k).
Proof.
  intros Hm Hk s. specialize (Hm s). unfold bind.
  destruct (m s) as [[a|e|c|] s1]; simpl in *; try exact Hm.
  rewrite Hk. exact Hm.
Qed.

Lemma silent_if {A} (b : bool) (m1 m2 : M state A) :
  silent p m1 -> silent p m2 -> silent p (if b then m1 else m2).
Proof. destruct b; auto. Qed.

End Silent.

Create HintDb silent.
#[local] Hint Resolve silent_ret silent_raise silent_sys_exit silent_lift
  silent_self silent_get silent_set_running silent_set_cuda_is_setup
  silent_set_pending silent_if : silent.

(** Everything outside [upload] stays away from the protocol calls. *)
Section OutsideUpload.
Variable p : call -> bool.
Hypothesis p_upload : forall c, is_upload_call c = false -> p c = false.

Ltac quiet :=
  repeat first
    [ apply silent_bind; [ | intros ? ]
    | apply silent_emit; apply p_upload; reflexivity
    | apply silent_if
    | solve [ auto with silent ] ].

Lemma silent_gl_close : silent p gl_close.
Proof. unfold gl_close. quiet. Qed.

Lemma silent_gl_draw_internal : silent p gl_draw_internal.
Proof. unfold gl_draw_internal. quiet. Qed.

Lemma silent_poll_loop evs tracker l : silent p (poll_loop evs tracker l).
Proof.
  revert l. induction evs as [|ev evs IH]; intros l; cbn [poll_loop].
  - quiet.
  - quiet; first [apply silent_gl_close | apply IH].
Qed.

Lemma silent_gl_step : silent p gl_step.
Proof.
  unfold gl_step. cbv zeta.
  quiet; first [apply silent_poll_loop | apply silent_gl_draw_internal].
Qed.

Lemma silent_cuda_setup E : silent p (cuda_setup E).
Proof. unfold cuda_setup. quiet. Qed.

Lemma silent_to_cuda im : silent p (to_cuda im).
Proof.
  unfold to_cuda. apply silent_bind; [auto with silent | intros r].
  destruct im as [t|a|a|]; [destruct (t_device t)| | |]; quiet.
Qed.

Lemma silent_normalize a : silent p (normalize a).
Proof.
  unfold normalize. cbv zeta. quiet.
  match goal with
  | |- silent _ (match shape ?x with _ => _ end) =>
      destruct (shape x) as [|? [|? [|? [|? ?]]]]
  end; quiet.
Qed.

End OutsideUpload.

(** ** The upload protocol *)

Lemma upload_spec E im s :
  upload E im s =
    (upload_result E,
     mk_state (rd s) (pending s) (trace s ++ upload_calls E im (rd s))).
Proof.
  unfold upload, upload_result, upload_calls.
  destruct (is_success (map_resources E)),
           (is_success (get_mapped_array E)),
           (is_success (memcpy_2d E)),
           (is_success (unmap_resources E));
    cbn; rewrite <- ?app_assoc; reflexivity.
Qed.

Section UploadCalls.
Variable p : call -> bool.
Hypothesis p_upload : forall c, is_upload_call c = false -> p c = false.

(** Seen through [p], the trace of [gl_render] grows by nothing, or by
    the calls of one [upload]; an error of [upload] is the error of
    [gl_render]. *)
Lemma gl_render_upload_calls E im s :
  let res := gl_render E im s in
  List.filter p (trace (snd res)) = List.filter p (trace s)
  \/ exists im' r',
       List.filter p (trace (snd res))
         = List.filter p (trace s) ++ List.filter p (upload_calls E im' r')
       /\ (forall e, upload_result E = Raise e -> fst res = Raise e).
Proof.
  cbv zeta. remember (gl_render E im s) as res eqn:Hres.
  unfold gl_render in Hres.
  unfold bind at 1 in Hres.
  pose proof (silent_to_cuda p p_upload im s) as H1.
  destruct (to_cuda im s) as [[a|e|c|] s1]; simpl in H1;
    try (left; subst res; exact H1).
  unfold bind at 1 in Hres.
  pose proof (silent_normalize p p_upload a s1) as H2.
  destruct (normalize a s1) as [[im'|e|c|] s2]; simpl in H2;
    try (left; subst res; simpl; congruence).
  unfold bind at 1 in Hres. cbn [self] in Hres.
  destruct (running (rd s2)); cbn [negb] in Hres;
    [ | left; subst res; simpl; congruence ].
  unfold bind at 1 in Hres.
  assert (H3 : silent p
            (if negb (cuda_is_setup (rd s2)) then cuda_setup E else ret tt))
    by (apply silent_if; [apply silent_cuda_setup; exact p_upload
                         | apply silent_ret]).
  specialize (H3 s2).
  destruct ((if negb (cuda_is_setup (rd s2)) then cuda_setup E else ret tt) s2)
    as [[[]|e|c|] s3]; simpl in H3; try (left; subst res; simpl; congruence).
  unfold bind at 1 in Hres. rewrite upload_spec in Hres.
  right. exists im', (rd s3).
  destruct (upload_result E) as [[]|e|c|] eqn:Hup.
  - split; [ | intros e He; discriminate ].
    unfold bind in Hres.
    pose proof (silent_gl_step p p_upload
                  (mk_state (rd s3) (pending s3)
                     (trace s3 ++ upload_calls E im' (rd s3)))) as H4.
    destruct (gl_step _) as [[e0|e0|c0|] s4]; subst res;
      cbn [snd fst ret trace] in *;
      rewrite H4, List.filter_app, H3, H2, H1; reflexivity.
  - subst res. cbn [snd fst trace].
    split; [ rewrite List.filter_app, H3, H2, H1; reflexivity
           | intros e' He'; inversion He'; reflexivity ].
  - subst res. cbn [snd fst trace].
    split; [ rewrite List.filter_app, H3, H2, H1; reflexivity
           | intros e' He'; inversion He'; reflexivity ].
  - subst res. cbn [snd fst trace].
    split; [ rewrite List.filter_app, H3, H2, H1; reflexivity
           | intros e' He'; inversion He'; reflexivity ].
Qed.

End UploadCalls.

Lemma is_map_upload c : is_upload_call c = false -> is_map c = false.
Proof. destruct c; cbn; intros H; first [reflexivity | discriminate]. Qed.
Lemma is_get_array_upload c : is_upload_call c = false -> is_get_array c = false.
Proof. destruct c; cbn; intros H; first [reflexivity | discriminate]. Qed.
Lemma is_copy_upload c : is_upload_call c = false -> is_copy c = false.
Proof. destruct c; cbn; intros H; first [reflexivity | discriminate]. Qed.
Lemma is_unmap_upload c : is_upload_call c = false -> is_unmap c = false.
Proof. destruct c; cbn; intros H; first [reflexivity | discriminate]. Qed.

(** C1, as the code has it.  One invocation of [gl_render], its trace
    starting empty.  A failed map is followed by no get-mapped-array, copy
    or unmap.  A copy that fails after a successful map is raised at
    once, and unmap is not invoked.  Unmap is invoked at most once, and
    only after map, get-mapped-array and copy have all succeeded. *)
Theorem gl_render_upload_protocol E im r q :
  let res := gl_render E im (mk_state r q []) in
  let tr := trace (snd res) in
  (is_success (map_resources E) = false ->
     List.filter is_get_array tr = []
     /\ List.filter is_copy tr = []
     /\ List.filter is_unmap tr = [])
  /\ (is_success (map_resources E) = true ->
      is_success (get_mapped_array E) = true ->
      is_success (memcpy_2d E) = false ->
        List.filter is_unmap tr = []
        /\ (List.filter is_copy tr <> [] ->
            fst res = Raise (CudaException "Unable to copy from tensor to texture")))
  /\ (length (List.filter is_unmap tr) <= 1)%nat
  /\ (List.filter is_unmap tr <> [] ->
        is_success (map_resources E) = true
        /\ is_success (get_mapped_array E) = true
        /\ is_success (memcpy_2d E) = true).
Proof.
  cbv zeta.
  pose proof (gl_render_upload_calls is_get_array is_get_array_upload E im
                (mk_state r q [])) as Hg.
  pose proof (gl_render_upload_calls is_copy is_copy_upload E im
                (mk_state r q [])) as Hc.
  pose proof (gl_render_upload_calls is_unmap is_unmap_upload E im
                (mk_state r q [])) as Hu.
  cbv zeta in Hg, Hc, Hu. simpl (trace (mk_state _ _ _)) in *.
  simpl (List.filter _ []) in *.
  unfold upload_calls, upload_result in *.
  destruct (is_success (map_resources E)),
           (is_success (get_mapped_array E)),
           (is_success (memcpy_2d E));
    simpl in Hg, Hc, Hu;
    destruct Hg as [Hg | (? & ? & Hg & _)];
    destruct Hc as [Hc | (? & ? & Hc & Hce)];
    destruct Hu as [Hu | (? & ? & Hu & _)];
    rewrite ?Hg, ?Hc, ?Hu; simpl;
    repeat split; intros; try congruence; try lia;
    try (apply Hce; reflexivity).
Qed.

(** C1, as stated, fails: the copy fails after a successful map, the
    error is raised, and unmap has not been invoked. *)
Lemma gl_render_copy_failure_skips_unmap :
  let res := gl_render copy_fails rgba_255 (mk_state renderer_gl [] []) in
  fst res = Raise (CudaException "Unable to copy from tensor to texture")
  /\ List.filter is_map (trace (snd res)) = [CudaGraphicsMapResources]
  /\ length (List.filter is_unmap (trace (snd res))) <> 1%nat.
Proof. vm_compute. repeat split; discriminate. Qed.

(** The copy fails on a 1 x 1 RGBA image. *)
Lemma gl_render_upload_protocol_witness :
  let res := gl_render copy_fails rgba_255 (mk_state renderer_gl [] []) in
  List.filter is_unmap (trace (snd res)) = []
  /\ fst res = Raise (CudaException "Unable to copy from tensor to texture").
Proof.
  destruct (gl_render_upload_protocol copy_fails rgba_255 renderer_gl [])
    as (_ & H & _).
  destruct H as [Hu Hr]; [reflexivity | reflexivity | reflexivity | ].
  split; [exact Hu | apply Hr; vm_compute; discriminate].
Defined.

(** ** Input shapes *)

Lemma to_cuda_spec im a s :
  image_arr im = Some a ->
  to_cuda im s =
    (Return a,
     mk_state (rd s) (pending s)
       (trace s ++ if on_host im then [TorchToDevice (gpu_id (rd s))] else [])).
Proof.
  destruct s as [r q tr].
  destruct im as [[d t]|b|b|]; simpl; intros H; inversion H; subst;
    unfold to_cuda; try destruct d; cbn; rewrite ?app_nil_r; reflexivity.
Qed.

(** C3.  A two-dimensional input never reaches the grayscale branch:
    [permute((1,0,2))] names three axes and raises on a tensor that has
    two. *)
Theorem gl_render_grayscale_raises E im a h w s :
  image_arr im = Some a ->
  shape a = [h; w] ->
  fst (gl_render E im s) =
    Raise (RuntimeError
      "permute(sparse_coo): number of dimensions in the tensor input does not match the length of the desired ordering of dimensions").
Proof.
  intros Him Hsh. unfold gl_render, bind.
  rewrite (to_cuda_spec im a s Him).
  unfold normalize, bind, permute_102, arr_map. cbn. rewrite Hsh.
  reflexivity.
Qed.

(** A numpy array of shape (1,1) holding 255. *)
Lemma gl_render_grayscale_raises_witness :
  fst (gl_render all_succeed gray_255 (mk_state renderer_gl [] [])) =
    Raise (RuntimeError
      "permute(sparse_coo): number of dimensions in the tensor input does not match the length of the desired ordering of dimensions").
Proof.
  apply (gl_render_grayscale_raises all_succeed gray_255
           (mk_ndarray [1; 1]%nat [EInt 255]) 1%nat 1%nat);
    reflexivity.
Defined.

(** Were the grayscale branch reached, [torch.cat((image,)*4, -1)] would
    widen the last of the two axes fourfold; it adds no channel axis. *)
Lemma cat_last_grayscale_shape {A} (im : ndarray A) n0 n1 :
  shape im = [n0; n1] ->
  exists r, cat_last [im; im; im; im] = Return r
            /\ shape r = [n0; (n1 + (n1 + (n1 + (n1 + 0))))%nat].
Proof.
  intros Hsh. unfold cat_last. cbn [forallb map foldr fold_right].
  rewrite !Hsh. cbn [removelast List.last].
  rewrite !bool_decide_eq_true_2
    by (first [reflexivity | intros Hn; discriminate Hn]).
  cbn [andb]. eexists. split; reflexivity.
Qed.

(** C4, as stated, fails: a numpy array of shape (1,1,5) is moved to the
    GPU, scaled, clamped and transposed before the channel test raises. *)
Lemma gl_render_five_channels_touches_gpu :
  let res := render all_succeed five_channels_255 (mk_state renderer_gl [] []) in
  fst res = Raise (PyException "render function received the wrong number of channels")
  /\ trace (snd res)
     = [TorchToDevice 0; TorchFloat; TorchDiv; TorchClamp; TorchPermute]
  /\ trace (snd res) <> [].
Proof. vm_compute. repeat split; discriminate. Qed.

(** C4, as the code has it.  On the GPU backend a five-channel image
    raises the channel error.  By then the torch calls have run: the
    transfer to the device when the input is host-resident, then float,
    division, clamp and permute.  Nothing else has been called: no CUDA
    interop call, no SDL or GL call; the renderer is unchanged. *)
Theorem render_five_channels E im a h w s :
  backend (rd s) = BackendGl ->
  image_arr im = Some a ->
  shape a = [h; w; 5%nat] ->
  render E im s =
    (Raise (PyException "render function received the wrong number of channels"),
     mk_state (rd s) (pending s)
       (trace s
        ++ (if on_host im then [TorchToDevice (gpu_id (rd s))] else [])
        ++ [TorchFloat; TorchDiv; TorchClamp; TorchPermute])).
Proof.
  intros Hb Him Hsh. unfold render. unfold bind at 1. cbn [self].
  rewrite Hb. unfold gl_render. unfold bind at 1.
  rewrite (to_cuda_spec im a s Him).
  unfold normalize, bind, permute_102, arr_map. cbn. rewrite Hsh. cbn.
  rewrite <- !app_assoc. reflexivity.
Qed.

(** A numpy array of shape (1,1,5). *)
Lemma render_five_channels_witness :
  render all_succeed five_channels_255 (mk_state renderer_gl [] []) =
    (Raise (PyException "render function received the wrong number of channels"),
     mk_state renderer_gl []
       [TorchToDevice 0; TorchFloat; TorchDiv; TorchClamp; TorchPermute]).
Proof.
  apply (render_five_channels all_succeed five_channels_255
           (mk_ndarray [1; 1; 5]%nat (repeat (EInt 255) 5)) 1%nat 1%nat
           (mk_state renderer_gl [] []));
    reflexivity.
Defined.

(** ** The returned event *)

(** C5.  With no key down in any polled event [gl_step] hands -1 to
    [sdl_to_cv2_keycode], whose branch for -1 is [pass]: the event's
    [pressed_key_code] is [None], not -1. *)
Theorem gl_step_no_key_gives_None s :
  no_key_down (pending s) ->
  exists e s',
    gl_step s = (Return e, s')
    /\ pressed_key_code e = Some PyNone
    /\ pressed_key_code e <> Some (PyInt (-1)).
Proof.
  intros Hq. destruct (gl_step_no_key s Hq) as (e & s' & Hrun & Hp).
  exists e, s'. repeat split; [exact Hrun | exact Hp | ].
  rewrite Hp. discriminate.
Qed.

(** One polled event, no key down. *)
Lemma gl_step_no_key_gives_None_witness :
  exists e s',
    gl_step (mk_state renderer_gl [idle_event] []) = (Return e, s')
    /\ pressed_key_code e = Some PyNone
    /\ pressed_key_code e <> Some (PyInt (-1)).
Proof.
  apply (gl_step_no_key_gives_None (mk_state renderer_gl [idle_event] [])).
  repeat constructor.
Defined.

Lemma gl_render_keycode E im s e s' :
  gl_render E im s = (Return (Some e), s') ->
  keycode e = PyInt (-1) /\ is_Some (pressed_key_code e).
Proof.
  unfold gl_render. intros H. inv_bind H.
  match type of H with
  | (if ?c then _ else _) _ = _ => destruct c; [inversion H|]
  end.
  inv_bind H. inversion H; subst.
  match goal with
  | Hs : gl_step _ = (Return _, _) |- _ =>
      split; [exact (gl_step_keycode _ _ _ Hs)
             | exact (gl_step_pressed_assigned _ _ _ Hs)]
  end.
Qed.

Lemma cv2_render_keycode E im s e s' :
  cv2_render E im s = (Return e, s') ->
  keycode e = PyInt (-1) /\ pressed_key_code e = Some (PyInt (wait_key E)).
Proof.
  unfold cv2_render. cbv zeta. intros H. inv_bind H.
  inversion H. split; reflexivity.
Qed.

(** C10.  Whenever [render] returns an event, on either backend, its
    [keycode] attribute still holds the -1 of the constructor; the key
    went to the [pressed_key_code] attribute. *)
Theorem render_keycode_stays_minus_1 E im s e s' :
  render E im s = (Return (Some e), s') ->
  keycode e = PyInt (-1) /\ is_Some (pressed_key_code e).
Proof.
  unfold render. intros H. inv_bind H.
  destruct (backend a).
  - exact (gl_render_keycode _ _ _ _ _ H).
  - inv_bind H. inversion H; subst.
    match goal with
    | Hc : cv2_render _ _ _ = (Return _, _) |- _ =>
        destruct (cv2_render_keycode _ _ _ _ _ Hc) as [Hk Hp]
    end.
    split; [exact Hk | rewrite Hp; eauto].
Qed.

(** The OpenCV backend with the key a pressed: [pressed_key_code] is 97,
    [keycode] is -1. *)
Lemma render_keycode_stays_minus_1_witness :
  exists e s',
    render key_a rgba_255 (mk_state renderer_cv2 [] []) = (Return (Some e), s')
    /\ pressed_key_code e = Some (PyInt 97)
    /\ keycode e = PyInt (-1).
Proof.
  eexists _, _. split; [reflexivity | split; [reflexivity | ]].
  eapply (render_keycode_stays_minus_1 key_a rgba_255
            (mk_state renderer_cv2 [] [])).
  reflexivity.
Defined.

End GlProofs.

(** * Further properties of cam.py *)
Module CamExtProofs.
Import Cam CamProofs CamExt.
Local Open Scope nat_scope.

(** ** Construction *)

(** X1.  On Ubuntu [WebCam(...)] never gets as far as starting its
    thread.  With no camera enumerated [init_ubuntu] raises [ValueError];
    with one or more, the first [release] of its loop reads
    [self.thread], which [__init__] assigns only after [smart_init] has
    returned. *)
Theorem init_on_ubuntu_raises E cam_id shape_hw fuel s0 :
  os_type E = "Ubuntu"%string ->
  let res := __init__ E cam_id shape_hw (S fuel) s0 in
  fst res = match glob_video E with
            | [] => Raise (ValueError "No cameras found")
            | _ :: _ =>
                Raise (AttributeError "'WebCam' object has no attribute 'thread'")
            end
  /\ thread (obj (snd res)) = None
  /\ List.filter is_thread_start (trace (snd res))
     = List.filter is_thread_start (trace s0).
Proof.
  intros Hos. cbv zeta. destruct s0 as [o r n tr].
  unfold __init__, smart_init, init_ubuntu. rewrite Hos.
  destruct (glob_video E) as [|p0 rest].
  - cbn -[pretty]. rewrite List.filter_app. cbn. rewrite app_nil_r. auto.
  - unfold bind, release. cbn -[pretty].
    rewrite !List.filter_app. cbn. rewrite !app_nil_r. auto.
Qed.

(** One enumerated camera: the constructor raises [AttributeError]. *)
Lemma init_on_ubuntu_raises_witness :
  fst (__init__ one_silent_camera 0 (2, 2) 1 start)
  = Raise (AttributeError "'WebCam' object has no attribute 'thread'").
Proof.
  apply (init_on_ubuntu_raises one_silent_camera 0 (2, 2) 0 start).
  reflexivity.
Defined.

(** X2.  On a system that is neither Ubuntu nor MacOS the constructor
    raises [NotImplementedError] before it has called anything: the
    trace is as it was, no capture exists, no thread is started. *)
Theorem init_on_other_os_raises E cam_id shape_hw fuel s0 :
  os_type E <> "Ubuntu"%string -> os_type E <> "MacOS"%string ->
  let res := __init__ E cam_id shape_hw fuel s0 in
  fst res = Raise (NotImplementedError "Only Ubuntu and Mac supported.")
  /\ trace (snd res) = trace s0
  /\ cam (obj (snd res)) = None
  /\ thread (obj (snd res)) = None.
Proof.
  intros Hu Hm. cbv zeta. destruct s0 as [o r n tr].
  unfold __init__, smart_init.
  apply String.eqb_neq in Hu, Hm. rewrite Hu, Hm.
  cbn. auto.
Qed.

Lemma init_on_other_os_raises_witness :
  fst (__init__ (mk_env "Windows" [] (fun _ _ => None) 0) 0 (2, 2) 0 start)
  = Raise (NotImplementedError "Only Ubuntu and Mac supported.").
Proof.
  apply (init_on_other_os_raises (mk_env "Windows" [] (fun _ _ => None) 0)
           0 (2, 2) 0 start); discriminate.
Defined.

(** ** Repair *)

Lemma get_raw_image_bad E s h :
  cam (obj s) = Some h -> bad_read E s h ->
  get_raw_image E s
  = (Return None,
     mk_state (obj s) (S (reads s)) (next_id s) (trace s ++ [CapRead h])).
Proof.
  intros Hcam Hbad. destruct s as [o r n tr]. simpl in Hcam.
  unfold bad_read in Hbad. simpl in Hbad.
  unfold get_raw_image, cam_read, self_cam, self, bind. cbn.
  rewrite Hcam. cbn.
  destruct (frame_of E r (hdev h)) as [a|]; [|reflexivity].
  assert (Hb : (size a <=? 99) = true) by (apply Nat.leb_le; lia).
  rewrite Hb. reflexivity.
Qed.

(** X4.  On MacOS a bad read is repaired within the round.  After the
    read the calls are, in this order: the capture is released; a
    capture on [device_ptr] is opened and released; a new one is opened
    by index [cam_id] through AVFoundation and configured (30 frames
    per second, MJPG, the width and the height of [shape_hw]); a pause
    of one second; the pause of the loop.  No capture but the new
    [self.cam] is left open, and the frame is as it was. *)
Theorem repair_on_mac E fuel s h :
  os_type E = "MacOS"%string ->
  cam (obj s) = Some h -> open_handles (trace s) = [h] ->
  bad_read E s h ->
  let tmp := mk_handle (next_id s) (device_ptr (obj s)) in
  let h' := mk_handle (S (next_id s)) (DevIndex (cam_id (obj s))) in
  exists s',
    threader_body E fuel s = (Return tt, s')
    /\ cam (obj s') = Some h'
    /\ open_handles (trace s') = [h']
    /\ get_img (obj s') = get_img (obj s)
    /\ reads s' = S (reads s)
    /\ trace s'
       = trace s ++
         [ CapRead h; CapRelease h;
           VideoCapture tmp; CapRelease tmp;
           VideoCaptureAVFoundation h';
           CapSet h' CAP_PROP_FPS 30;
           CapSet h' CAP_PROP_FOURCC 0x47504A4D;
           CapSet h' CAP_PROP_FRAME_WIDTH (Z.of_nat (snd (shape_hw (obj s))));
           CapSet h' CAP_PROP_FRAME_HEIGHT (Z.of_nat (fst (shape_hw (obj s))));
           Sleep 1000; Sleep (sleep_time_thread (obj s)) ].
Proof.
  intros Hos Hcam Hopen Hbad. cbv zeta.
  unfold threader_body. unfold bind at 1. unfold bind at 1.
  rewrite (get_raw_image_bad E s h Hcam Hbad).
  destruct s as [o r n tr]. destruct o as [dm sc cid shw il dp stt cm ta th].
  simpl in Hcam, Hopen. subst cm. clear Hbad.
  unfold smart_init, init_mac. rewrite Hos.
  unfold bind. cbn.
  eexists. split; [reflexivity|]. cbn.
  split; [reflexivity|]. split.
  { unfold open_handles in *. rewrite !fold_left_app, Hopen. cbn.
    repeat (rewrite Nat.eqb_refl; cbn). reflexivity. }
  split; [reflexivity|]. split; [reflexivity|].
  rewrite <- !List.app_assoc. reflexivity.
Qed.

(** The round after construction on a Mac whose camera is silent. *)
Lemma repair_on_mac_witness :
  exists s',
    threader_body mac_capture_thread 0 mac_built = (Return tt, s')
    /\ cam (obj s') = Some (mk_handle 4 (DevIndex 0))
    /\ open_handles (trace s') = [mk_handle 4 (DevIndex 0)]
    /\ get_img (obj s') = get_img (obj mac_built)
    /\ reads s' = 1
    /\ trace s'
       = trace mac_built ++
         [ CapRead (mk_handle 1 (DevIndex 0));
           CapRelease (mk_handle 1 (DevIndex 0));
           VideoCapture (mk_handle 3 (DevIndex 0));
           CapRelease (mk_handle 3 (DevIndex 0));
           VideoCaptureAVFoundation (mk_handle 4 (DevIndex 0));
           CapSet (mk_handle 4 (DevIndex 0)) CAP_PROP_FPS 30;
           CapSet (mk_handle 4 (DevIndex 0)) CAP_PROP_FOURCC 0x47504A4D;
           CapSet (mk_handle 4 (DevIndex 0)) CAP_PROP_FRAME_WIDTH 2;
           CapSet (mk_handle 4 (DevIndex 0)) CAP_PROP_FRAME_HEIGHT 2;
           Sleep 1000; Sleep 1 ].
Proof.
  apply (repair_on_mac mac_capture_thread 0 mac_built
           (mk_handle 1 (DevIndex 0)));
    first [reflexivity | exact I].
Defined.


(** ** Publishing *)

Lemma process_raw_image_flags o1 o2 a :
  shift_colors o1 = shift_colors o2 -> do_mirror o1 = do_mirror o2 ->
  process_raw_image o1 a = process_raw_image o2 a.
Proof. intros Hs Hm. unfold process_raw_image. rewrite Hs, Hm. reflexivity. Qed.

Lemma process_raw_image_returns o (a : ndarray Z) :
  3 <= length (shape a) -> exists r, process_raw_image o a = Return r.
Proof.
  intros Hdim. unfold process_raw_image, np_flip.
  assert (H2 : (2 <? length (shape a)) = true) by (apply Nat.ltb_lt; lia).
  assert (H1 : (1 <? length (shape a)) = true) by (apply Nat.ltb_lt; lia).
  rewrite H2.
  destruct (shift_colors o), (do_mirror o); cbn [shape]; rewrite ?H1; eauto.
Qed.

(** A round whose read brings a usable frame: the processed frame
    replaces [img_last]; the capture is neither released nor reopened. *)
Lemma threader_body_publishes E fuel s h a r :
  cam (obj s) = Some h ->
  frame_of E (reads s) (hdev h) = Some a -> 100 <= size a ->
  process_raw_image (obj s) a = Return r ->
  threader_body E fuel s
  = (Return tt,
     mk_state (with_img_last r (obj s)) (S (reads s)) (next_id s)
       (trace s ++ [CapRead h; Sleep (sleep_time_thread (obj s))])).
Proof.
  intros Hcam Hread Hsize Hproc.
  destruct s as [o rd n tr]. simpl in Hcam, Hread, Hproc.
  unfold threader_body, get_raw_image, cam_read, self_cam, self, bind. cbn.
  rewrite Hcam. cbn. rewrite Hread.
  assert (Hb : (size a <=? 99) = false) by (apply Nat.leb_gt; lia).
  rewrite Hb. cbn. unfold lift. rewrite Hproc. cbn.
  unfold emit, modify, set_obj. cbn. rewrite <- app_assoc. reflexivity.
Qed.

(** X5.  The frame buffer is a latest-value cell.  While every read
    brings a usable frame of three axes, the capture loop keeps running
    (it has not returned after any number of rounds), and after each
    round [get_img] returns the processed frame of that round's read;
    the capture opened at the start is still the one in use. *)
Theorem capture_loop_latest_frame E n (f : nat -> ndarray Z) :
  forall s h,
    cam (obj s) = Some h -> threader_active (obj s) = Some true ->
    (forall k, k <= n ->
       frame_of E (reads s + k) (hdev h) = Some (f k)
       /\ 100 <= size (f k) /\ 3 <= length (shape (f k))) ->
    exists s',
      threader_runfunc_cam E (S n) s = (OutOfFuel, s')
      /\ process_raw_image (obj s) (f n) = Return (get_img (obj s'))
      /\ reads s' = reads s + S n
      /\ cam (obj s') = Some h.
Proof.
  induction n as [|n IH] in f |- *; intros s h Hcam Hact Hgood.
  - destruct (Hgood 0 ltac:(lia)) as (Hread & Hsize & Hdim).
    rewrite Nat.add_0_r in Hread.
    destruct (process_raw_image_returns (obj s) (f 0) Hdim) as (r & Hr).
    cbn [threader_runfunc_cam]. unfold bind at 1. cbn [self]. rewrite Hact.
    unfold bind at 1.
    rewrite (threader_body_publishes E 0 s h (f 0) r Hcam Hread Hsize Hr).
    cbn. eexists. split; [reflexivity|]. cbn.
    repeat split; [exact Hr | lia | exact Hcam].
  - destruct (Hgood 0 ltac:(lia)) as (Hread & Hsize & Hdim).
    rewrite Nat.add_0_r in Hread.
    destruct (process_raw_image_returns (obj s) (f 0) Hdim) as (r & Hr).
    set (s1 := mk_state (with_img_last r (obj s)) (S (reads s)) (next_id s)
                 (trace s ++ [CapRead h; Sleep (sleep_time_thread (obj s))])).
    destruct (IH (fun k => f (S k)) s1 h) as (s' & Hrun & Hlast & Hreads & Hc).
    + exact Hcam.
    + exact Hact.
    + intros k Hk. specialize (Hgood (S k) ltac:(lia)).
      simpl reads. replace (S (reads s) + k) with (reads s + S k) by lia.
      exact Hgood.
    + exists s'.
      change (threader_runfunc_cam E (S (S n)) s)
        with (bind self (fun o =>
                match threader_active o with
                | None => raise (AttributeError
                    "'WebCam' object has no attribute 'threader_active'")
                | Some false => ret tt
                | Some true =>
                    bind (threader_body E (S n)) (fun _ =>
                      threader_runfunc_cam E (S n))
                end) s).
      unfold bind at 1. cbn [self]. rewrite Hact. unfold bind at 1.
      rewrite (threader_body_publishes E (S n) s h (f 0) r Hcam Hread Hsize Hr).
      fold s1. rewrite Hrun.
      split; [reflexivity|].
      split; [ rewrite <- Hlast; apply process_raw_image_flags; reflexivity | ].
      split; [ rewrite Hreads; simpl; lia | exact Hc ].
Qed.

(** Two reads of the second camera, from its second read on. *)
Lemma capture_loop_latest_frame_witness :
  exists s',
    threader_runfunc_cam second_camera_wakes 2
      (mk_state (with_cam (mk_handle 1 (DevPath "/dev/video1"))
                   webcam_first_available) 1 2 [])
    = (OutOfFuel, s')
    /\ process_raw_image webcam_first_available frame_128
       = Return (get_img (obj s'))
    /\ reads s' = 3.
Proof.
  destruct (capture_loop_latest_frame second_camera_wakes 1
              (fun _ => frame_128)
              (mk_state (with_cam (mk_handle 1 (DevPath "/dev/video1"))
                           webcam_first_available) 1 2 [])
              (mk_handle 1 (DevPath "/dev/video1")) eq_refl eq_refl)
    as (s' & Hrun & Hlast & Hreads & _).
  - intros k Hk.
    assert (Hk' : k = 0 \/ k = 1) by lia.
    destruct Hk' as [-> | ->]; (split; [reflexivity | split; vm_compute; lia]).
  - exists s'. split; [exact Hrun | split; [exact Hlast | exact Hreads]].
Defined.


(** ** Flipping twice *)

(** Two three-dimensional arrays of one shape with the same element at
    every position are the same array. *)
Lemma at3_ext {A} (a b : ndarray A) h w c :
  shape a = [h; w; c] -> shape b = [h; w; c] ->
  length (data a) = h * w * c -> length (data b) = h * w * c ->
  (forall i j x, i < h -> j < w -> x < c -> at3 a i j x = at3 b i j x) ->
  a = b.
Proof.
  intros Hsa Hsb Hla Hlb Hat.
  destruct a as [sa da], b as [sb db]. simpl in *. subst sa sb. f_equal.
  apply list_eq. intros n.
  destruct (Nat.lt_ge_cases n (h * w * c)) as [Hn | Hn].
  - assert (Hc : 0 < c) by nia. assert (Hw : 0 < w) by nia.
    pose proof (Nat.div_mod_eq n c) as Hdm.
    pose proof (Nat.mod_upper_bound n c ltac:(lia)) as Hx.
    pose proof (Nat.div_mod_eq (n / c) w) as Hdm2.
    pose proof (Nat.mod_upper_bound (n / c) w ltac:(lia)) as Hj.
    assert (Hq : n / c < h * w)
      by (apply Nat.Div0.div_lt_upper_bound; nia).
    assert (Hi : n / c / w < h)
      by (apply Nat.Div0.div_lt_upper_bound; nia).
    specialize (Hat (n / c / w) ((n / c) mod w) (n mod c) Hi Hj Hx).
    rewrite (at3_unfold (mk_ndarray [h; w; c] da) h w c) in Hat by auto.
    rewrite (at3_unfold (mk_ndarray [h; w; c] db) h w c) in Hat by auto.
    simpl in Hat.
    replace ((n / c / w * w + (n / c) mod w) * c + n mod c) with n in Hat
      by nia.
    exact Hat.
  - rewrite !lookup_ge_None_2 by lia. reflexivity.
Qed.

(** X6.  [process_raw_image] undoes itself: whatever the two flags
    are, processing the processed frame gives the raw frame back. *)
Theorem process_raw_image_twice (o : WebCam) (img : ndarray Z) h w c :
  shape img = [h; w; c] -> length (data img) = h * w * c ->
  exists r,
    process_raw_image o img = Return r
    /\ process_raw_image o r = Return img.
Proof.
  intros Hsh Hlen. unfold process_raw_image.
  destruct (shift_colors o), (do_mirror o).
  - destruct (np_flip_axis_2 img h w c Hsh Hlen) as (a & Ha & Hsa & Hla & Hata).
    destruct (np_flip_axis_1 a h w c Hsa Hla) as (r & Hr & Hsr & Hlr & Hatr).
    destruct (np_flip_axis_2 r h w c Hsr Hlr) as (b & Hb & Hsb & Hlb & Hatb).
    destruct (np_flip_axis_1 b h w c Hsb Hlb) as (r' & Hr' & Hsr' & Hlr' & Hatr').
    exists r. rewrite Ha, Hr, Hb, Hr'. split; [reflexivity|]. f_equal.
    apply (at3_ext r' img h w c); try assumption.
    intros i j x Hi Hj Hx.
    rewrite Hatr', Hatb, Hatr, Hata by lia.
    f_equal; lia.
  - destruct (np_flip_axis_2 img h w c Hsh Hlen) as (a & Ha & Hsa & Hla & Hata).
    destruct (np_flip_axis_2 a h w c Hsa Hla) as (b & Hb & Hsb & Hlb & Hatb).
    exists a. rewrite Ha, Hb. split; [reflexivity|]. f_equal.
    apply (at3_ext b img h w c); try assumption.
    intros i j x Hi Hj Hx. rewrite Hatb, Hata by lia. f_equal; lia.
  - destruct (np_flip_axis_1 img h w c Hsh Hlen) as (a & Ha & Hsa & Hla & Hata).
    destruct (np_flip_axis_1 a h w c Hsa Hla) as (b & Hb & Hsb & Hlb & Hatb).
    exists a. rewrite Ha, Hb. split; [reflexivity|]. f_equal.
    apply (at3_ext b img h w c); try assumption.
    intros i j x Hi Hj Hx. rewrite Hatb, Hata by lia. f_equal; lia.
  - exists img. split; reflexivity.
Qed.

(** Colours shifted and mirrored, on a 2 x 2 x 3 frame. *)
Lemma process_raw_image_twice_witness :
  exists r,
    process_raw_image webcam_mirrored frame_0_to_11 = Return r
    /\ data r = [5; 4; 3; 2; 1; 0; 11; 10; 9; 8; 7; 6]%Z
    /\ process_raw_image webcam_mirrored r = Return frame_0_to_11.
Proof.
  destruct (process_raw_image_twice webcam_mirrored frame_0_to_11 2 2 3
              eq_refl eq_refl) as (r & Hr & Hback).
  exists r. split; [exact Hr | split; [ | exact Hback]].
  vm_compute in Hr. inversion Hr. reflexivity.
Defined.

(** X7.  A usable frame with fewer than three axes ends the capture
    loop: with [shift_colors] set, as [__init__] sets it, the colour
    shift raises [AxisError] out of the round, and nothing is published. *)
Theorem round_on_flat_frame_raises E fuel s h a :
  cam (obj s) = Some h -> shift_colors (obj s) = true ->
  frame_of E (reads s) (hdev h) = Some a ->
  100 <= size a -> length (shape a) < 3 ->
  exists s',
    threader_body E fuel s
    = (Raise (AxisError "axis is out of bounds for array"), s')
    /\ get_img (obj s') = get_img (obj s).
Proof.
  intros Hcam Hshift Hread Hsize Hdim.
  destruct s as [o rd n tr]. simpl in Hcam, Hshift, Hread.
  unfold threader_body, get_raw_image, cam_read, self_cam, self, bind. cbn.
  rewrite Hcam. cbn. rewrite Hread.
  assert (Hb : (size a <=? 99) = false) by (apply Nat.leb_gt; lia).
  rewrite Hb. cbn. unfold lift, process_raw_image, np_flip. rewrite Hshift.
  assert (H2 : (2 <? length (shape a)) = false) by (apply Nat.ltb_ge; lia).
  rewrite H2. eexists. split; reflexivity.
Qed.

(** A camera that delivers 10 x 10 grayscale frames. *)
Lemma round_on_flat_frame_raises_witness :
  exists s',
    threader_body (mk_env "MacOS" [] (fun _ _ => Some gray_frame) 2) 0 start
    = (Raise (AxisError "axis is out of bounds for array"), s')
    /\ get_img (obj s') = get_img (obj start).
Proof.
  apply (round_on_flat_frame_raises
           (mk_env "MacOS" [] (fun _ _ => Some gray_frame) 2) 0 start
           (mk_handle 0 (DevIndex (-1))) gray_frame);
    first [reflexivity | vm_compute; lia].
Defined.

(** ** A camera named by its index *)

(** X8.  A camera index other than -1 is not checked against the
    enumeration, which only has to be non-empty: [WebCam(k, ...)] on
    Ubuntu opens [/dev/video<k>], listed or not, and nothing else.  The
    constructor then raises [AttributeError] at the first [release] of
    [init_ubuntu], so that capture is left open and no frame is read. *)
Theorem init_named_camera_on_ubuntu E cam_id shape_hw fuel s0 :
  os_type E = "Ubuntu"%string -> glob_video E <> [] -> cam_id <> (-1)%Z ->
  let h := mk_handle (next_id s0)
             (DevPath ("/dev/video" +:+ pretty cam_id)) in
  exists s',
    __init__ E cam_id shape_hw (S fuel) s0
    = (Raise (AttributeError "'WebCam' object has no attribute 'thread'"), s')
    /\ trace s' = trace s0 ++ [Glob; VideoCapture h]
    /\ open_handles (trace s') = open_handles (trace s0) ++ [h]
    /\ reads s' = reads s0.
Proof.
  intros Hos Hglob Hid. cbv zeta.
  destruct (glob_video E) as [|p0 rest] eqn:Hpaths; [congruence|].
  pose proof (init_on_ubuntu_state E cam_id shape_hw fuel s0 p0 rest
                Hos Hpaths) as H.
  cbv zeta in H. apply Z.eqb_neq in Hid. rewrite Hid in H.
  eexists. split; [exact H|].
  cbn [trace reads]. split; [reflexivity|].
  split; [apply open_handles_glob_open | reflexivity].
Qed.

(** Camera 2 is named where only [/dev/video0] is enumerated. *)
Lemma init_named_camera_on_ubuntu_witness :
  exists s',
    __init__ camera_2_wakes 2 (2, 2) 1 start
    = (Raise (AttributeError "'WebCam' object has no attribute 'thread'"), s')
    /\ trace s' = [Glob; VideoCapture (mk_handle 1 (DevPath "/dev/video2"))]
    /\ open_handles (trace s') = [mk_handle 1 (DevPath "/dev/video2")]
    /\ reads s' = 0.
Proof.
  apply (init_named_camera_on_ubuntu camera_2_wakes 2 (2, 2) 0 start);
    first [reflexivity | discriminate].
Defined.

End CamExtProofs.

(** * Further properties of gl.py *)
Module GlExtProofs.
Import sdl2 Gl GlProofs GlExt.

(** ** Key codes *)

Lemma sdl_to_cv2_keycode_cases (k : Z) :
  sdl_to_cv2_keycode k =
    Return
      (if (4 <=? k) && (k <=? 29) then PyInt (k + 93)
       else if (30 <=? k) && (k <=? 39) then PyInt (k + 19)
       else if k =? 40 then PyInt 13 else if k =? 41 then PyInt 27
       else if k =? 42 then PyInt 8 else if k =? 43 then PyInt 9
       else if k =? 44 then PyInt 32
       else if k =? 58 then PyInt 0x700000 else if k =? 59 then PyInt 0x710000
       else if k =? 60 then PyInt 0x720000 else if k =? 61 then PyInt 0x730000
       else if k =? 79 then PyInt 0x270000 else if k =? 80 then PyInt 0x250000
       else if k =? 81 then PyInt 0x280000 else if k =? 82 then PyInt 0x260000
       else if k =? -1 then PyNone else PyInt (-1)).
Proof.
  unfold sdl_to_cv2_keycode, SDL_SCANCODE_A, SDL_SCANCODE_Z, SDL_SCANCODE_1,
    SDL_SCANCODE_0.
  change (ord "a"%char) with 97. change (ord "1"%char) with 49.
  destruct ((4 <=? k) && (k <=? 29)) eqn:Hl.
  - apply andb_prop in Hl as [H1 H2]. apply Z.leb_le in H1, H2.
    unfold ord_chr.
    replace ((0 <=? k - 4 + 97) && (k - 4 + 97 <? 1114112)) with true
      by (symmetry; apply andb_true_intro; split;
          [apply Z.leb_le | apply Z.ltb_lt]; lia).
    simpl. do 2 f_equal. lia.
  - destruct ((30 <=? k) && (k <=? 39)) eqn:Hd.
    + apply andb_prop in Hd as [H1 H2]. apply Z.leb_le in H1, H2.
      unfold ord_chr.
      replace ((0 <=? k - 30 + 49) && (k - 30 + 49 <? 1114112)) with true
        by (symmetry; apply andb_true_intro; split;
            [apply Z.leb_le | apply Z.ltb_lt]; lia).
      simpl. do 2 f_equal. lia.
    + rewrite special_keys_lookup.
      repeat match goal with
             | |- context [?a =? ?b] =>
                 lazymatch b with
                 | -1 => fail
                 | _ => destruct (a =? b); [reflexivity|]
                 end
             end.
      destruct (k =? -1); reflexivity.
Qed.

(** X9.  [sdl_to_cv2_keycode] raises on no integer.  It returns [None]
    for -1 and for nothing else, and -1 for every other code outside the
    letters, the digit row and the thirteen special keys. *)
Theorem sdl_to_cv2_keycode_total (k : Z) :
  exists v,
    sdl_to_cv2_keycode k = Return v
    /\ (v = PyNone <-> k = -1)
    /\ (v = PyInt (-1) <->
          k <> -1 /\ ~ (4 <= k <= 44) /\ ~ (58 <= k <= 61) /\ ~ (79 <= k <= 82)).
Proof.
  rewrite sdl_to_cv2_keycode_cases. eexists. split; [reflexivity|].
  destruct ((4 <=? k) && (k <=? 29)) eqn:Hl;
    [ apply andb_prop in Hl as [H1 H2]; apply Z.leb_le in H1, H2;
      split; split; intros H; try discriminate H; try lia;
      inversion H; lia | ].
  destruct ((30 <=? k) && (k <=? 39)) eqn:Hd;
    [ apply andb_prop in Hd as [H1 H2]; apply Z.leb_le in H1, H2;
      split; split; intros H; try discriminate H; try lia;
      inversion H; lia | ].
  apply andb_false_iff in Hl, Hd.
  rewrite !Z.leb_gt in Hl, Hd.
  repeat match goal with
         | |- context [?a =? ?b] => destruct (Z.eqb_spec a b)
         end;
    split; split; intros H; try discriminate H; try lia; try reflexivity.
Qed.

(** X10.  No two keys share a code: two scancodes that
    [sdl_to_cv2_keycode] maps to the same integer other than -1 are the
    same scancode. *)
Theorem sdl_to_cv2_keycode_injective (k1 k2 v : Z) :
  sdl_to_cv2_keycode k1 = Return (PyInt v) ->
  sdl_to_cv2_keycode k2 = Return (PyInt v) ->
  v <> -1 ->
  k1 = k2.
Proof.
  rewrite !sdl_to_cv2_keycode_cases. intros H1 H2 Hv.
  destruct ((4 <=? k1) && (k1 <=? 29)) eqn:Hl1;
  destruct ((4 <=? k2) && (k2 <=? 29)) eqn:Hl2;
  destruct ((30 <=? k1) && (k1 <=? 39)) eqn:Hd1;
  destruct ((30 <=? k2) && (k2 <=? 39)) eqn:Hd2;
  repeat match goal with
         | H : _ && _ = true |- _ =>
             apply andb_prop in H as [? ?]
         | H : (_ <=? _) = true |- _ => apply Z.leb_le in H
         end;
  repeat match type of H1 with
         | context [?a =? ?b] => destruct (Z.eqb_spec a b)
         end;
  repeat match type of H2 with
         | context [?a =? ?b] => destruct (Z.eqb_spec a b)
         end;
  inversion H1; inversion H2; lia.
Qed.

(** The only scancode that gives 27 is that of Escape. *)
Lemma sdl_to_cv2_keycode_injective_witness :
  sdl_to_cv2_keycode 41 = Return (PyInt 27) /\ 41 = SDL_SCANCODE_ESCAPE.
Proof.
  split; [vm_compute; reflexivity | ].
  apply (sdl_to_cv2_keycode_injective 41 SDL_SCANCODE_ESCAPE 27);
    [vm_compute; reflexivity | vm_compute; reflexivity | lia].
Defined.


(** ** The event loop of [gl_step] *)

Lemma scan_keys_upto ks p k n :
  (k < n)%nat -> (n <= SDL_NUM_SCANCODES)%nat -> ks k = true ->
  (forall j, (k < j)%nat -> (j < n)%nat -> ks j = false) ->
  fold_left
    (fun pressed key_code =>
       if ks key_code && (nth key_code (repeat 0 SDL_NUM_SCANCODES) 0 =? 0)
       then Z.of_nat key_code
       else if negb (ks key_code)
               && (nth key_code (repeat 0 SDL_NUM_SCANCODES) 0 =? 1)
       then pressed
       else pressed)
    (seq 0 n) p
  = Z.of_nat k.
Proof.
  intros Hk Hn Hdown Hup. induction n as [|n IH]; [lia|].
  rewrite seq_S, fold_left_app. cbn [fold_left Nat.add].
  rewrite nth_repeat. cbn [Z.eqb].
  destruct (Nat.eq_dec k n) as [-> | Hne].
  - rewrite Hdown. reflexivity.
  - rewrite (Hup n) by lia. cbn [andb negb].
    apply IH; [lia | lia | intros j H1 H2; apply Hup; lia].
Qed.

(** X11.  The scan of the keyboard array reports one key, whatever
    was reported before: the highest scancode that is down.  (The
    tracker array it consults is all zero; nothing writes to it.) *)
Theorem scan_keys_reports_highest ks p k :
  (k < SDL_NUM_SCANCODES)%nat -> ks k = true ->
  (forall j, (k < j)%nat -> (j < SDL_NUM_SCANCODES)%nat -> ks j = false) ->
  scan_keys ks (repeat 0 SDL_NUM_SCANCODES) p = Z.of_nat k.
Proof.
  intros Hk Hdown Hup. unfold scan_keys.
  apply scan_keys_upto; auto.
Qed.

(** Shift (225) and the key a (4) down together: 225 is reported. *)
Lemma scan_keys_reports_highest_witness :
  scan_keys (fun k => (k =? 4)%nat || (k =? 225)%nat)
    (repeat 0 SDL_NUM_SCANCODES) (-1) = 225.
Proof.
  apply (scan_keys_reports_highest
           (fun k => (k =? 4)%nat || (k =? 225)%nat) (-1) 225%nat).
  - unfold SDL_NUM_SCANCODES. lia.
  - reflexivity.
  - intros j H1 H2.
    apply orb_false_intro; apply Nat.eqb_neq; lia.
Defined.



Lemma poll_loop_mouse evs tracker :
  forall l s l' s',
    poll_loop evs tracker l s = (Return l', s') ->
    l_mouse_posY l' = l_mouse_posY l
    /\ l_mouse_buttonstate l'
       = match last evs with
         | Some ev => mouse_state ev
         | None => l_mouse_buttonstate l
         end.
Proof.
  induction evs as [|ev evs IH]; intros l s l' s' H.
  - cbn in H. inversion H. split; reflexivity.
  - cbn [poll_loop] in H. cbv zeta in H. inv_bind H.
    apply IH in H as [HY HB]. cbn in HY, HB.
    split; [exact HY|].
    rewrite HB. destruct evs as [|ev' evs']; [reflexivity|].
    rewrite last_cons_cons.
    destruct (last (ev' :: evs')) eqn:Hlast; [reflexivity|].
    apply last_None in Hlast. discriminate Hlast.
Qed.

(** X13.  The event [gl_step] returns never carries a y coordinate:
    [mouse_posY] is the cell holding 0 it was created as, because
    [SDL_GetMouseState] is handed [mouse_posX] twice.  The button state
    is that of the last polled event, or -1 when the renderer is not
    running or nothing was polled. *)
Theorem gl_step_mouse s e s' :
  gl_step s = (Return e, s') ->
  mouse_posY e = PyCInt 0
  /\ mouse_button_state e
     = PyInt (if running (rd s)
              then match last (pending s) with
                   | Some ev => mouse_state ev
                   | None => -1
                   end
              else -1).
Proof.
  unfold gl_step. cbv zeta. intros H.
  apply bind_Return in H as ([] & s1 & H1 & H).
  apply bind_Return in H as (r & s2 & H2 & H).
  cbn in H1. inversion H1; subst s1. clear H1.
  cbn in H2. inversion H2; subst r s2. clear H2.
  apply bind_Return in H as (l & s3 & Hl & H).
  apply bind_Return in H as (v & s4 & _ & H).
  inversion H; subst. clear H. cbn [mouse_posY mouse_button_state].
  destruct (running (rd s)).
  - apply bind_Return in Hl as (s0 & s5 & Hg & Hl).
    cbn in Hg. inversion Hg; subst s0 s5. clear Hg.
    apply bind_Return in Hl as (l0 & s6 & Hp & Hl).
    apply bind_Return in Hl as ([] & s7 & _ & Hl).
    inversion Hl; subst. clear Hl.
    apply poll_loop_mouse in Hp as [HY HB]. cbn in HY, HB.
    rewrite HY, HB. split; reflexivity.
  - inversion Hl; subst. split; reflexivity.
Qed.

(** The key a pressed with the mouse at (7, 9), left button down. *)
Lemma gl_step_mouse_witness :
  exists e s',
    gl_step (mk_state renderer_gl [idle_event; key_a_event] []) = (Return e, s')
    /\ pressed_key_code e = Some (PyInt 97)
    /\ mouse_posY e = PyCInt 0
    /\ mouse_button_state e = PyInt 1.
Proof.
  eexists _, _. split; [vm_compute; reflexivity|].
  split; [reflexivity|].
  eapply (gl_step_mouse (mk_state renderer_gl [idle_event; key_a_event] [])).
  vm_compute. reflexivity.
Defined.

(** X14.  A value that is neither tensor, array nor PIL image is turned
    away before anything is called, on either backend: [render] raises
    and the state, trace included, is as it was. *)
Theorem render_unknown_type E s :
  render E ImOther s
  = (Raise (PyException "render function received input of unknown type"), s).
Proof.
  destruct s as [r q tr]. unfold render, bind. cbn.
  destruct (backend r); reflexivity.
Qed.


(** ** Stages of a call *)

Lemma settled_refl r : settled r r.
Proof. unfold settled. tauto. Qed.

Lemma settled_trans r1 r2 r3 : settled r1 r2 -> settled r2 r3 -> settled r1 r3.
Proof.
  unfold settled.
  intros (T1 & G1 & W1 & H1 & B1 & C1 & R1) (T2 & G2 & W2 & H2 & B2 & C2 & R2).
  repeat split; try congruence; auto.
Qed.

Section Acts.
Variable Q : call -> bool.

Lemma acts_pure {A} (m : M state A) :
  (forall s, snd (m s) = s) -> acts Q m.
Proof.
  intros Hm s. rewrite Hm. split; [apply settled_refl|].
  exists []. rewrite app_nil_r. split; reflexivity.
Qed.

Lemma acts_ret {A} (a : A) : acts Q (ret a).
Proof. apply acts_pure. reflexivity. Qed.

Lemma acts_raise {A} e : acts Q (@raise state A e).
Proof. apply acts_pure. reflexivity. Qed.

Lemma acts_sys_exit {A} c : acts Q (@sys_exit state A c).
Proof. apply acts_pure. reflexivity. Qed.

Lemma acts_lift {A} (o : outcome A) : acts Q (lift o).
Proof. apply acts_pure. reflexivity. Qed.

Lemma acts_self : acts Q self.
Proof. apply acts_pure. reflexivity. Qed.

Lemma acts_get : acts Q get.
Proof. apply acts_pure. reflexivity. Qed.

Lemma acts_set_pending q : acts Q (set_pending q).
Proof.
  intros s. split; [apply settled_refl|].
  exists []. rewrite app_nil_r. split; reflexivity.
Qed.

Lemma acts_set_running_false : acts Q (set_running false).
Proof.
  intros s. split; [unfold settled; cbn; tauto|].
  exists []. rewrite app_nil_r. split; reflexivity.
Qed.

Lemma acts_set_cuda_is_setup_true : acts Q (set_cuda_is_setup true).
Proof.
  intros s. split; [unfold settled; cbn; tauto|].
  exists []. rewrite app_nil_r. split; reflexivity.
Qed.

Lemma acts_emit c : Q c = true -> acts Q (emit c).
Proof.
  intros Hc s. split; [apply settled_refl|].
  exists [c]. cbn. rewrite Hc. split; reflexivity.
Qed.

Lemma acts_bind {A B} (m : M state A) (k : A -> M state B) :
  acts Q m -> (forall a, acts Q (k a)) -> acts Q (bind m k).
Proof.
  intros Hm Hk s. destruct (Hm s) as (Hs & l & Hl & HQ). unfold bind.
  destruct (m s) as [[a|e|c|] s1]; cbn [snd] in *;
    [ | split; [exact Hs | exists l; auto] .. ].
  destruct (Hk a s1) as (Hs2 & l2 & Hl2 & HQ2).
  split; [eapply settled_trans; eauto|].
  exists (l ++ l2). rewrite Hl2, Hl, <- List.app_assoc.
  rewrite List.forallb_app, HQ, HQ2.
  split; reflexivity.
Qed.

Lemma acts_if {A} (b : bool) (m1 m2 : M state A) :
  acts Q m1 -> acts Q m2 -> acts Q (if b then m1 else m2).
Proof. destruct b; auto. Qed.

End Acts.

Create HintDb acts.
#[local] Hint Resolve acts_ret acts_raise acts_sys_exit acts_lift acts_self
  acts_get acts_set_pending acts_set_running_false
  acts_set_cuda_is_setup_true acts_if : acts.

Ltac act :=
  repeat first
    [ solve [ auto with acts ]
    | apply acts_emit; reflexivity
    | apply acts_bind; [ | intros ? ]
    | apply acts_if
    | match goal with
      | |- acts _ (match ?x with _ => _ end) => destruct x
      end ].

Lemma acts_gl_close : acts is_present_call gl_close.
Proof. unfold gl_close. act. Qed.

Lemma acts_gl_draw_internal : acts is_present_call gl_draw_internal.
Proof. unfold gl_draw_internal. act. Qed.

#[local] Hint Resolve acts_gl_close acts_gl_draw_internal : acts.

Lemma acts_poll_loop evs tracker l :
  acts is_present_call (poll_loop evs tracker l).
Proof.
  revert l. induction evs as [|ev evs IH]; intros l; cbn [poll_loop]; act.
Qed.

#[local] Hint Resolve acts_poll_loop : acts.

Lemma acts_gl_step : acts is_present_call gl_step.
Proof. unfold gl_step. cbv zeta. act. Qed.

Lemma acts_cuda_setup E : acts is_setup_call (cuda_setup E).
Proof. unfold cuda_setup. act. Qed.

Lemma acts_to_cuda im : acts is_torch_call (to_cuda im).
Proof. unfold to_cuda. act. Qed.

Lemma acts_normalize a : acts is_torch_call (normalize a).
Proof. unfold normalize. cbv zeta. act. Qed.

Lemma acts_upload E im : acts is_upload_call (upload E im).
Proof. unfold upload. act. Qed.

Lemma acts_cv2_render E im :
  acts (fun c => is_cv2_call c || is_torch_call c) (cv2_render E im).
Proof. unfold cv2_render. cbv zeta. act. Qed.


Lemma upload_calls_class E im r :
  forallb is_upload_call (upload_calls E im r) = true.
Proof.
  unfold upload_calls.
  destruct (is_success (map_resources E)), (is_success (get_mapped_array E)),
           (is_success (memcpy_2d E)); reflexivity.
Qed.

Lemma upload_calls_settled E im r r' :
  settled r r' -> upload_calls E im r' = upload_calls E im r.
Proof.
  intros (_ & _ & Hw & Hh & _). unfold upload_calls. rewrite Hw, Hh.
  reflexivity.
Qed.

(** The calls of one [gl_render], stage by stage. *)
Lemma gl_render_stages E im s : exists l1 l2 l3 l4, staged E im s l1 l2 l3 l4.
Proof.
  unfold staged.
  remember (gl_render E im s) as res eqn:Hres.
  unfold gl_render in Hres. unfold bind at 1 in Hres.
  destruct (acts_to_cuda im s) as (Hs1 & l1a & Ht1 & Hq1).
  destruct (to_cuda im s) as [[a|e|c|] s1]; cbn [snd] in *;
    [ | subst res; exists l1a, [], [], []; cbn [fst snd];
        rewrite !app_nil_r;
        (split; [exact Ht1|]); (split; [exact Hq1|]);
        (split; [reflexivity|]); (split; [left; reflexivity|]);
        (split; [reflexivity|]); (split; [exact Hs1|]);
        (split; [reflexivity|]);
        (split; [intros _; repeat split; intros e0 He0; discriminate He0|]);
        intros Hne; congruence .. ].
  unfold bind at 1 in Hres.
  destruct (acts_normalize a s1) as (Hs2 & l1b & Ht2 & Hq2).
  assert (Hs12 : settled (rd s) (rd (snd (normalize a s1))))
    by (eapply settled_trans; eauto).
  assert (Ht12 : trace (snd (normalize a s1)) = trace s ++ (l1a ++ l1b))
    by (rewrite Ht2, Ht1, <- List.app_assoc; reflexivity).
  assert (Hq12 : forallb is_torch_call (l1a ++ l1b) = true)
    by (rewrite List.forallb_app, Hq1, Hq2; reflexivity).
  clear Hs1 Ht1 Hq1 Hs2 Ht2 Hq2.
  destruct (normalize a s1) as [[im'|e|c|] s2]; cbn [snd] in *;
    [ | subst res; exists (l1a ++ l1b), [], [], []; cbn [fst snd];
        rewrite !app_nil_r;
        (split; [exact Ht12|]); (split; [exact Hq12|]);
        (split; [reflexivity|]); (split; [left; reflexivity|]);
        (split; [reflexivity|]); (split; [exact Hs12|]);
        (split; [reflexivity|]);
        (split; [intros _; repeat split; intros e0 He0; discriminate He0|]);
        intros Hne; congruence .. ].
  unfold bind at 1 in Hres. cbn [self] in Hres.
  destruct (running (rd s2)) eqn:Hrun; cbn [negb] in Hres.
  2:{ subst res. exists (l1a ++ l1b), [], [], []. cbn [fst snd ret].
      rewrite !app_nil_r.
      (split; [exact Ht12|]); (split; [exact Hq12|]);
      (split; [reflexivity|]); (split; [left; reflexivity|]);
      (split; [reflexivity|]); (split; [exact Hs12|]);
      (split; [reflexivity|]);
      (split; [intros _; repeat split; intros e0 He0; discriminate He0|]);
      intros Hne; congruence. }
  assert (Hrun0 : running (rd s) = false -> False).
  { destruct Hs12 as (_ & _ & _ & _ & _ & _ & Hr).
    intros Hoff. rewrite (Hr Hoff) in Hrun. discriminate Hrun. }
  unfold bind at 1 in Hres.
  assert (Hsetup :
    settled (rd s2)
      (rd (snd ((if negb (cuda_is_setup (rd s2))
                 then cuda_setup E else ret tt) s2)))
    /\ exists l2,
         trace (snd ((if negb (cuda_is_setup (rd s2))
                      then cuda_setup E else ret tt) s2)) = trace s2 ++ l2
         /\ forallb is_setup_call l2 = true
         /\ (cuda_is_setup (rd s2) = true -> l2 = [])).
  { destruct (cuda_is_setup (rd s2)); cbn [negb].
    - split; [apply settled_refl|]. exists []. cbn.
      rewrite app_nil_r. auto.
    - destruct (acts_cuda_setup E s2) as (H1 & l2 & H2 & H3).
      split; [exact H1|]. exists l2.
      split; [exact H2|]. split; [exact H3|]. discriminate. }
  destruct Hsetup as (Hs3 & l2 & Ht3 & Hq3 & Hlazy).
  assert (Hlazy0 : cuda_is_setup (rd s) = true -> l2 = []).
  { intros Hc. apply Hlazy.
    destruct Hs12 as (_ & _ & _ & _ & _ & Hk & _). auto. }
  assert (Hs13 : settled (rd s)
            (rd (snd ((if negb (cuda_is_setup (rd s2))
                       then cuda_setup E else ret tt) s2))))
    by (eapply settled_trans; eauto).
  clear Hs3 Hlazy.
  destruct ((if negb (cuda_is_setup (rd s2)) then cuda_setup E else ret tt) s2)
    as [[[]|e|c|] s3]; cbn [snd] in *;
    [ | subst res; exists (l1a ++ l1b), l2, [], []; cbn [fst snd];
        rewrite !app_nil_r, Ht3, Ht12, <- !List.app_assoc;
        (split; [reflexivity|]); (split; [exact Hq12|]);
        (split; [exact Hq3|]); (split; [left; reflexivity|]);
        (split; [reflexivity|]); (split; [exact Hs13|]);
        (split; [exact Hlazy0|]);
        (split; [intros Hoff; destruct (Hrun0 Hoff)|]);
        intros Hne; congruence .. ].
  unfold bind at 1 in Hres. rewrite upload_spec in Hres.
  assert (Hup : upload_calls E im' (rd s3) = upload_calls E im' (rd s))
    by (apply upload_calls_settled; exact Hs13).
  rewrite Hup in Hres.
  destruct (upload_result E) as [[]|e|c|] eqn:Hresult;
    [ | subst res; exists (l1a ++ l1b), l2, (upload_calls E im' (rd s)), [];
        cbn [fst snd rd trace];
        rewrite !app_nil_r, Ht3, Ht12, <- !List.app_assoc;
        (split; [reflexivity|]); (split; [exact Hq12|]);
        (split; [exact Hq3|]); (split; [right; exists im'; reflexivity|]);
        (split; [reflexivity|]); (split; [exact Hs13|]);
        (split; [exact Hlazy0|]);
        (split; [intros Hoff; destruct (Hrun0 Hoff)|]);
        intros Hne; congruence .. ].
  unfold bind in Hres.
  destruct (acts_gl_step (mk_state (rd s3) (pending s3)
                            (trace s3 ++ upload_calls E im' (rd s))))
    as (Hs4 & l4 & Ht4 & Hq4).
  cbn [rd trace] in Hs4, Ht4.
  assert (Hs14 : settled (rd s)
            (rd (snd (gl_step (mk_state (rd s3) (pending s3)
                                 (trace s3 ++ upload_calls E im' (rd s)))))))
    by (eapply settled_trans; eauto).
  destruct (gl_step _) as [[e0|e0|c0|] s4]; cbn [snd] in *;
    subst res; exists (l1a ++ l1b), l2, (upload_calls E im' (rd s)), l4;
    cbn [fst snd ret];
    rewrite Ht4, Ht3, Ht12, <- !List.app_assoc;
    (split; [reflexivity|]); (split; [exact Hq12|]);
    (split; [exact Hq3|]); (split; [right; exists im'; reflexivity|]);
    (split; [exact Hq4|]); (split; [exact Hs14|]);
    (split; [exact Hlazy0|]);
    (split; [intros Hoff; destruct (Hrun0 Hoff)|]);
    intros Hne; reflexivity.
Qed.

Lemma filter_other_class (Q p : call -> bool) l :
  (forall c, Q c = true -> p c = false) ->
  forallb Q l = true -> List.filter p l = [].
Proof.
  intros HQp. induction l as [|c l IH]; cbn; [reflexivity|].
  intros H. apply andb_prop in H as [Hc Hl].
  rewrite (HQp c Hc). auto.
Qed.

Lemma forallb_weaken (Q Q' : call -> bool) l :
  (forall c, Q c = true -> Q' c = true) ->
  forallb Q l = true -> forallb Q' l = true.
Proof.
  intros HQ. induction l as [|c l IH]; cbn; [reflexivity|].
  intros H. apply andb_prop in H as [Hc Hl].
  rewrite (HQ c Hc), IH by exact Hl. reflexivity.
Qed.

(** X15.  [gl_render] works in stages that do not interleave: first
    the torch calls on the image, then the calls of [cuda_setup], then
    the calls of the upload, then those of [gl_step].  The upload calls
    are an initial part of map, get-mapped-array, copy, unmap, in that
    order and each at most once, cut where the first of them fails; and
    [gl_step] is reached only when all four have succeeded. *)
Theorem gl_render_call_order E im r q :
  exists l1 l2 l3 l4,
    trace (snd (gl_render E im (mk_state r q []))) = l1 ++ l2 ++ l3 ++ l4
    /\ forallb is_torch_call l1 = true
    /\ forallb is_setup_call l2 = true
    /\ (l3 = [] \/ exists im', l3 = upload_calls E im' r)
    /\ forallb is_present_call l4 = true
    /\ (l4 <> [] -> upload_result E = Return tt).
Proof.
  destruct (gl_render_stages E im (mk_state r q []))
    as (l1 & l2 & l3 & l4 & Ht & H1 & H2 & H3 & H4 & _ & _ & _ & H5).
  cbn [rd] in H3.
  exists l1, l2, l3, l4. cbn in Ht. auto 10.
Qed.

(** X16.  The texture is registered lazily and not again: a
    [gl_render] that finds [cuda_is_setup] set calls neither [SDL_Init]
    nor [cudaGLGetDevices] nor [cudaGraphicsGLRegisterImage], and leaves
    the flag set. *)
Theorem gl_render_registers_once E im s :
  cuda_is_setup (rd s) = true ->
  List.filter is_setup_call (trace (snd (gl_render E im s)))
  = List.filter is_setup_call (trace s)
  /\ cuda_is_setup (rd (snd (gl_render E im s))) = true.
Proof.
  intros Hset.
  destruct (gl_render_stages E im s)
    as (l1 & l2 & l3 & l4 & Ht & H1 & H2 & H3 & H4 & Hs & Hlazy & _ & _).
  split.
  - rewrite Ht, (Hlazy Hset), !List.filter_app.
    rewrite (filter_other_class is_torch_call is_setup_call l1)
      by (auto; intros []; cbn; congruence).
    rewrite (filter_other_class is_present_call is_setup_call l4)
      by (auto; intros []; cbn; congruence).
    rewrite (filter_other_class is_upload_call is_setup_call l3).
    + cbn. rewrite app_nil_r. reflexivity.
    + intros []; cbn; congruence.
    + destruct H3 as [-> | (im' & ->)];
        [reflexivity | apply upload_calls_class].
  - destruct Hs as (_ & _ & _ & _ & _ & Hk & _). auto.
Qed.

Lemma gl_render_registers_once_witness :
  List.filter is_setup_call
    (trace (snd (gl_render all_succeed rgba_255 (mk_state renderer_gl [] []))))
  = [].
Proof.
  apply (gl_render_registers_once all_succeed rgba_255
           (mk_state renderer_gl [] [])).
  reflexivity.
Defined.



(** X18.  No call of [render], on either backend and however it ends,
    changes the window title, the GPU, the size or the backend of the
    renderer, clears [cuda_is_setup], or sets [running] again. *)
Theorem render_settled E im s :
  settled (rd s) (rd (snd (render E im s))).
Proof.
  unfold render, bind. cbn [self].
  destruct (backend (rd s)).
  - destruct (gl_render_stages E im s)
      as (l1 & l2 & l3 & l4 & _ & _ & _ & _ & _ & Hs & _).
    exact Hs.
  - destruct (acts_cv2_render E im s) as (Hs & _).
    destruct (cv2_render E im s) as [[e|e|c|] s1]; exact Hs.
Qed.

(** ** Closing the window *)

Lemma poll_loop_close evs tracker :
  forall l s l' s',
    poll_loop evs tracker l s = (Return l', s') ->
    existsb is_close evs = true ->
    running (rd s') = false.
Proof.
  induction evs as [|ev evs IH]; intros l s l' s' H Hclose;
    [discriminate Hclose|].
  cbn [existsb] in Hclose. cbn [poll_loop] in H. cbv zeta in H.
  apply bind_Return in H as ([] & s1 & _ & H).
  apply bind_Return in H as ([] & s2 & _ & H).
  apply bind_Return in H as ([] & s3 & _ & H).
  apply bind_Return in H as ([] & s4 & Hc & H).
  apply bind_Return in H as ([] & s5 & He & H).
  fold (is_close ev) in Hc.
  destruct (is_close ev) eqn:Hev.
  - assert (Hoff : running (rd s4) = false).
    { clear - Hc. cbn in Hc. inversion Hc. reflexivity. }
    assert (Hoff5 : running (rd s5) = false).
    { destruct (key_states ev (Z.to_nat SDL_SCANCODE_ESCAPE)).
      - inv_bind He. discriminate He.
      - inversion He; subst. exact Hoff. }
    destruct (acts_poll_loop evs tracker
                (mk_step_locals
                   (scan_keys (key_states ev) tracker (l_pressed_key_code l))
                   (mouse_state ev) (mouse_y ev) (l_mouse_posY l)) s5)
      as ((_ & _ & _ & _ & _ & _ & Hr) & _).
    cbn [l_pressed_key_code l_mouse_buttonstate l_mouse_posX l_mouse_posY] in H.
    rewrite H in Hr. cbn [snd] in Hr. auto.
  - cbn [orb] in Hclose. eapply IH; eauto.
Qed.

(** X19.  Closing the window stops the renderer for good.  When
    [gl_step] returns after polling a window-close event, [running] is
    off; the next [gl_render], whatever it is given, hands back no
    event and calls nothing but torch. *)
Theorem gl_step_close_stops s e s' :
  gl_step s = (Return e, s') ->
  running (rd s) = true ->
  existsb is_close (pending s) = true ->
  running (rd s') = false
  /\ forall E im,
       (forall e2, fst (gl_render E im s') <> Return (Some e2))
       /\ exists l, trace (snd (gl_render E im s')) = trace s' ++ l
                    /\ forallb is_torch_call l = true.
Proof.
  intros H Hrun Hclose.
  assert (Hoff : running (rd s') = false).
  { unfold gl_step in H. cbv zeta in H.
    apply bind_Return in H as ([] & s1 & H1 & H).
    apply bind_Return in H as (r & s2 & H2 & H).
    cbn in H1. inversion H1; subst s1. clear H1.
    cbn in H2. inversion H2; subst r s2. clear H2.
    cbn [rd] in H. rewrite Hrun in H.
    apply bind_Return in H as (l & s3 & Hl & H).
    apply bind_Return in H as (v & s4 & Hv & H).
    inversion H; subst. clear H.
    unfold lift in Hv. inversion Hv; subst. clear Hv.
    apply bind_Return in Hl as (s0 & s5 & Hg & Hl).
    cbn in Hg. inversion Hg; subst s0 s5. clear Hg.
    apply bind_Return in Hl as (l0 & s6 & Hp & Hl).
    apply bind_Return in Hl as ([] & s7 & Hd & Hl).
    inversion Hl; subst. clear Hl.
    cbn [pending] in Hp.
    apply poll_loop_close in Hp; [|exact Hclose].
    destruct (acts_gl_draw_internal s6)
      as ((_ & _ & _ & _ & _ & _ & Hr) & _).
    rewrite Hd in Hr. cbn in Hr. auto. }
  split; [exact Hoff|].
  intros E im.
  destruct (gl_render_stages E im s')
    as (l1 & l2 & l3 & l4 & Ht & H1 & _ & _ & _ & _ & _ & Hstop & _).
  destruct (Hstop Hoff) as (-> & -> & -> & Hnone).
  split; [exact Hnone|].
  exists l1. rewrite Ht, !app_nil_r. auto.
Qed.

Lemma gl_step_close_stops_witness :
  exists e s',
    gl_step (mk_state renderer_gl [close_event] []) = (Return e, s')
    /\ running (rd s') = false.
Proof.
  eexists _, _. split; [vm_compute; reflexivity|].
  eapply (gl_step_close_stops (mk_state renderer_gl [close_event] []));
    vm_compute; reflexivity.
Defined.


(** ** The normalized image *)

Lemma clamp01_in_unit x : in_unit (clamp01 x).
Proof.
  unfold in_unit, clamp01.
  destruct (SFltb x f32_zero) eqn:H0; [split; vm_compute; reflexivity|].
  destruct (SFltb f32_one x) eqn:H1; [split; vm_compute; reflexivity|].
  split; assumption.
Qed.

Lemma f32_one_in_unit : in_unit f32_one.
Proof. split; vm_compute; reflexivity. Qed.

Section ForallData.
Context {A : Type} (P : A -> Prop).

Lemma Forall_flat_map_intro {B} (f : B -> list A) (l : list B) :
  (forall x, Forall P (f x)) -> Forall P (flat_map f l).
Proof.
  intros Hf. induction l as [|x l IH]; cbn; [constructor|].
  apply Forall_app. split; auto.
Qed.

Lemma Forall_flat_map_each {B} (f : B -> list A) (l : list B) :
  Forall (fun x => Forall P (f x)) l -> Forall P (flat_map f l).
Proof.
  induction 1 as [|x l Hx _ IH]; cbn; [constructor|].
  apply Forall_app. split; auto.
Qed.

Lemma chunks_Forall k n (l : list A) :
  Forall P l -> Forall (Forall P) (chunks k n l).
Proof.
  revert l. induction k as [|k IH]; intros l Hl; cbn; constructor.
  - apply Forall_take. exact Hl.
  - apply IH. apply Forall_drop. exact Hl.
Qed.

Lemma nth_Forall (ll : list (list A)) r :
  Forall (Forall P) ll -> Forall P (nth r ll []).
Proof.
  intros Hll. revert r. induction Hll as [|c ll Hc _ IH]; intros [|r]; cbn;
    auto; constructor.
Qed.

Lemma permute_102_Forall (a p : ndarray A) :
  permute_102 a = Return p -> Forall P (data a) -> Forall P (data p).
Proof.
  unfold permute_102. intros H Ha.
  destruct (shape a) as [|h [|w [|c [|? ?]]]]; try discriminate H.
  inversion H; subst. cbn [data].
  apply Forall_flat_map_intro. intros j.
  apply Forall_flat_map_intro. intros i.
  apply Forall_take, Forall_drop. exact Ha.
Qed.

Lemma cat_last_Forall (ts : list (ndarray A)) (r : ndarray A) :
  cat_last ts = Return r ->
  Forall (fun t => Forall P (data t)) ts -> Forall P (data r).
Proof.
  unfold cat_last. intros H Hts.
  destruct ts as [|t ts']; [discriminate H|].
  destruct (forallb _ _); [|discriminate H].
  inversion H; subst. cbn [data].
  apply Forall_flat_map_intro. intros i.
  apply (Forall_flat_map_each
           (fun u => nth i (chunks (prod_list (removelast (shape t)))
                              (List.last (shape u) 0%nat) (data u)) [])
           (t :: ts')).
  eapply Forall_impl; [exact Hts|].
  intros u Hu. cbn. apply nth_Forall, chunks_Forall. exact Hu.
Qed.

End ForallData.

(** X20.  Whatever [gl_render] gets past its channel test lies in the
    unit range: no element of the normalized image is below 0 or above
    1, the appended alpha channel included. *)
Theorem normalize_in_unit a s im s' :
  normalize a s = (Return im, s') -> Forall in_unit (data im).
Proof.
  unfold normalize. cbv zeta. intros H.
  apply bind_Return in H as ([] & s1 & _ & H).
  apply bind_Return in H as ([] & s2 & _ & H).
  apply bind_Return in H as ([] & s3 & _ & H).
  apply bind_Return in H as ([] & s4 & _ & H).
  apply bind_Return in H as (p & s5 & Hp & H).
  unfold lift in Hp.
  match type of Hp with
  | (?x, _) = _ => assert (Hperm : x = Return p) by congruence
  end.
  clear Hp.
  assert (Hin : Forall in_unit (data p)).
  { apply (permute_102_Forall in_unit _ p Hperm).
    cbn [arr_map data]. apply Forall_fmap.
    apply Forall_forall. intros x _. cbn. apply clamp01_in_unit. }
  destruct (shape p) as [|n0 [|n1 [|ch [|? ?]]]];
    try (cbn in H; discriminate H).
  - apply bind_Return in H as ([] & s6 & _ & H).
    unfold lift in H.
    match type of H with
    | (?x, _) = _ => assert (Hcat : x = Return im) by congruence
    end.
    apply (cat_last_Forall in_unit _ im Hcat).
    repeat constructor; exact Hin.
  - destruct (ch =? 3)%nat.
    + apply bind_Return in H as ([] & s6 & _ & H).
      apply bind_Return in H as ([] & s7 & _ & H).
      unfold lift in H.
      match type of H with
      | (?x, _) = _ => assert (Hcat : x = Return im) by congruence
      end.
      apply (cat_last_Forall in_unit _ im Hcat).
      repeat constructor; [exact Hin|].
      cbn [torch_ones data]. apply Forall_forall. intros x Hx.
      apply list_elem_of_In, repeat_spec in Hx. subst x.
      apply f32_one_in_unit.
    + destruct (ch =? 4)%nat; [|cbn in H; discriminate H].
      cbn in H. inversion H; subst. exact Hin.
Qed.

Lemma normalize_in_unit_witness :
  exists im s',
    normalize rgb_1x2 (mk_state renderer_gl [] []) = (Return im, s')
    /\ shape im = [2; 1; 4]%nat
    /\ Forall in_unit (data im).
Proof.
  eexists _, _. split; [vm_compute; reflexivity|]. split; [reflexivity|].
  eapply (normalize_in_unit rgb_1x2 (mk_state renderer_gl [] [])).
  vm_compute. reflexivity.
Defined.


Local Open Scope nat_scope.











(** ** Registering the texture *)

(** X23.  [cuda_setup] on a renderer whose texture is not registered
    returns exactly when [SDL_Init] answers 0, [cudaGLGetDevices] does
    not answer [cudaErrorUnknown] (any other error of it is let through)
    and [cudaGraphicsGLRegisterImage] succeeds; and [cuda_is_setup] is
    set exactly when it returns, so that a failed setup is tried again by
    the next [gl_render]. *)
Theorem cuda_setup_flag E s :
  cuda_is_setup (rd s) = false ->
  (fst (cuda_setup E s) = Return tt
   <-> sdl_init E = 0%Z
       /\ gl_get_devices E <> cudaErrorUnknown
       /\ register_image E = cudaSuccess)
  /\ (cuda_is_setup (rd (snd (cuda_setup E s))) = true
      <-> fst (cuda_setup E s) = Return tt).
Proof.
  intros Hoff. unfold cuda_setup, bind. cbn [self]. rewrite Hoff.
  cbn [emit modify].
  destruct (Z.eqb_spec (sdl_init E) 0) as [H0|H0]; cbn [negb].
  2:{ cbn. rewrite Hoff. split; split; try discriminate.
      intros (H & _); contradiction. }
  destruct (gl_get_devices E) as [| |c]; cbn [is_unknown].
  2:{ cbn. rewrite Hoff. split; split; try discriminate.
      intros (_ & H & _); contradiction. }
  all: destruct (register_image E) as [| |c']; cbn [is_success negb];
    cbn; rewrite ?Hoff; split; split; try discriminate; try reflexivity;
    try (intros (_ & _ & H); discriminate H);
    intros _; repeat split; auto; discriminate.
Qed.

Lemma cuda_setup_flag_witness :
  fst (cuda_setup all_succeed (mk_state renderer_fresh [] [])) = Return tt
  /\ cuda_is_setup
       (rd (snd (cuda_setup register_fails (mk_state renderer_fresh [] []))))
     <> true.
Proof.
  split.
  - destruct (cuda_setup_flag all_succeed (mk_state renderer_fresh [] [])
                eq_refl) as [[_ H] _].
    apply H. split; [reflexivity|]. split; [discriminate|reflexivity].
  - destruct (cuda_setup_flag register_fails (mk_state renderer_fresh [] [])
                eq_refl) as [[H1 _] [H2 _]].
    intros H. destruct (H1 (H2 H)) as (_ & _ & H3). discriminate H3.
Defined.

(** ** The OpenCV backend *)

Lemma clip_uint8_range e : is_uint8 (clip_uint8 e).
Proof.
  unfold is_uint8.
  destruct e as [z|[s|[]| |s m e]]; cbn [clip_uint8]; lia.
Qed.

Lemma clip_uint8_in_range z : is_uint8 z -> clip_uint8 (EInt z) = z.
Proof. unfold is_uint8. cbn [clip_uint8]. lia. Qed.

(** X24.  [render] on the OpenCV backend, given an array or a PIL image
    that [cv2.imshow] takes.  The image shown has the shape of the
    input and every element in 0..255: an integer already there is
    kept, a smaller one becomes 0, a larger one 255.  One key is waited
    for.  Key 27 destroys the windows and exits with status 0; any
    other answer, the -1 of no key included, comes back as
    [pressed_key_code] with the three mouse attributes at -1.  The
    renderer is not touched and no torch, SDL, GL or CUDA call is
    made. *)
Theorem render_opencv E im a s :
  backend (rd s) = BackendOpenCV ->
  im = ImNdarray a \/ im = ImPIL a ->
  showable a = true ->
  exists img,
    shape img = shape a
    /\ Forall is_uint8 (data img)
    /\ (forall k z, data a !! k = Some (EInt z) ->
          data img !! k = Some (Z.max 0 (Z.min z 255))
          /\ (is_uint8 z -> data img !! k = Some z))
    /\ render E im s =
         if (wait_key E =? 27)%Z
         then (SysExit 0,
               mk_state (rd s) (pending s)
                 (trace s ++ [Cv2Imshow img; Cv2WaitKey;
                              Cv2DestroyAllWindows]))
         else (Return (Some (mk_PeripheralEvent (PyInt (-1)) (PyInt (-1))
                               (PyInt (-1)) (PyInt (-1))
                               (Some (PyInt (wait_key E))))),
               mk_state (rd s) (pending s)
                 (trace s ++ [Cv2Imshow img; Cv2WaitKey])).
Proof.
  intros Hb Him _. exists (arr_map clip_uint8 a).
  split; [reflexivity|]. split.
  { cbn [arr_map data]. apply Forall_fmap, Forall_forall.
    intros e _. apply clip_uint8_range. }
  split.
  { intros k z Hk. cbn [arr_map data].
    assert (Hmap : map clip_uint8 (data a) !! k
                   = Some (Z.max 0 (Z.min z 255))).
    { change (map clip_uint8 (data a)) with (clip_uint8 <$> data a).
      rewrite list_lookup_fmap, Hk. reflexivity. }
    split; [exact Hmap|].
    intros Hz. rewrite Hmap. unfold is_uint8 in Hz. f_equal. lia. }
  destruct s as [r q tr]. cbn [rd] in Hb.
  unfold render, bind. cbn [self rd]. rewrite Hb.
  unfold cv2_render. cbv zeta.
  destruct Him as [-> | ->];
    unfold bind; cbn -[Z.eqb arr_map clip_uint8];
    destruct (wait_key E =? 27)%Z; cbn -[arr_map clip_uint8];
    rewrite <- ?List.app_assoc; reflexivity.
Qed.

(** A 1 x 2 RGB array with the elements -7, 128 and 300 among others,
    the key a pressed. *)
Lemma render_opencv_witness :
  exists img,
    shape img = [1; 2; 3]
    /\ Forall is_uint8 (data img)
    /\ (forall k z, data rgb_1x2 !! k = Some (EInt z) ->
          data img !! k = Some (Z.max 0 (Z.min z 255))
          /\ (is_uint8 z -> data img !! k = Some z))
    /\ render key_a (ImNdarray rgb_1x2) (mk_state renderer_cv2 [] [])
       = (Return (Some (mk_PeripheralEvent (PyInt (-1)) (PyInt (-1))
                          (PyInt (-1)) (PyInt (-1)) (Some (PyInt 97)))),
          mk_state renderer_cv2 [] [Cv2Imshow img; Cv2WaitKey]).
Proof.
  exact (render_opencv key_a (ImNdarray rgb_1x2) rgb_1x2
           (mk_state renderer_cv2 [] []) eq_refl
           (or_introl eq_refl) eq_refl).
Defined.

End GlExtProofs.
